(** * Audit trail of the account front end: profile edits and sign-in attempts

    A shallow embedding of the two form handlers that write audit rows,
    [src/pages/Profile.tsx] and [src/pages/Login.tsx], together with the row
    types of [src/lib/types.ts].

    The handlers are [async] functions that talk to a remote record store and
    to an identity provider, show notifications and update the state of a
    React component.  They are embedded in a small state-and-exception monad:
    the state is the component's state plus the chronological trace of every
    externally visible effect, and the answers of the outside world (store,
    identity provider, clock) are given by an environment that may depend on
    everything that happened before the call. *)

From Stdlib Require Import String Ascii List Bool.
Import ListNotations.
Open Scope string_scope.

(* ------------------------------------------------------------------ *)
(** ** JavaScript values the handlers compute with *)

Module Js.

(** A value of type [string | undefined], [string | null] or of the mixed
    kind a nullable text column has at run time. *)
Inductive OptString : Type :=
| Undefined
| Null
| Str (s : string).

(** [a === b] on such values. *)
Definition strict_eq (a b : OptString) : bool :=
  match a, b with
  | Undefined, Undefined => true
  | Null, Null => true
  | Str s, Str t => String.eqb s t
  | _, _ => false
  end.

(** [a !== b]. *)
Definition strict_neq (a b : OptString) : bool := negb (strict_eq a b).

(** [a || null], of type [string | null]: [None] is [null].  The falsy
    values [undefined], [null] and [''] give [null]. *)
Definition or_null (a : OptString) : option string :=
  match a with
  | Str s => if String.eqb s "" then None else Some s
  | _ => None
  end.

(** [a || ''], of type [string]. *)
Definition or_empty (a : OptString) : string :=
  match a with
  | Str s => s
  | _ => ""
  end.

(** An optional property [x?: string]: [None] is [undefined]. *)
Definition of_optional (a : option string) : OptString :=
  match a with
  | Some s => Str s
  | None => Undefined
  end.

(** A value that is thrown, or returned in an [error] property. *)
Record Error : Type := { message : string }.

(** What [await p] finds: the promise resolved to a value or was rejected. *)
Inductive Awaited (A : Type) : Type :=
| Resolved (a : A)
| Rejected (reason : Error).
Arguments Resolved {A} a.
Arguments Rejected {A} reason.

End Js.

(* ------------------------------------------------------------------ *)
(** ** Row types ([lib/types.ts]) *)

Module User.
(** The authenticated user of [useAuth]; only its id is read. *)
Record t : Type := { id : string }.
End User.

Module Profile.
Record t : Type := {
  id : string;
  first_name : string;
  last_name : string;
  phone_number : Js.OptString;   (* [phone_number?: string]; NULL in the table is [null] *)
  created_at : string;
  updated_at : string
}.
End Profile.

Module LoginHistory.
Record t : Type := {
  id : string;
  user_id : string;
  login_timestamp : string;
  ip_address : string;
  device_info : string;
  success : bool;
  failure_reason : option string
}.
End LoginHistory.

Module ProfileChange.
Record t : Type := {
  id : string;
  user_id : string;
  field_changed : string;
  old_value : option string;
  new_value : option string;
  change_timestamp : string;
  changed_by : string
}.
End ProfileChange.

(* ------------------------------------------------------------------ *)
(** ** Requests sent to the record store and to the identity provider *)

(** The object given to [from('profile_changes').insert]. *)
Module ChangeInsert.
Record t : Type := {
  user_id : string;
  field_changed : string;
  old_value : option string;     (* [string | null] *)
  new_value : option string;     (* [string | null] *)
  changed_by : string
}.
End ChangeInsert.

(** The object given to [from('login_history').insert]. *)
Module LoginInsert.
Record t : Type := {
  user_id : string;
  success : bool;
  device_info : string;
  failure_reason : option string (* [failureReason?: string] *)
}.
End LoginInsert.

(** The object given to [from('profiles').update]. *)
Module ProfileUpdate.
Record t : Type := {
  first_name : string;
  last_name : string;
  phone_number : option string;  (* [data.phoneNumber], possibly [undefined] *)
  updated_at : string
}.
End ProfileUpdate.

(** Every externally visible effect of the handlers, in the order issued. *)
Inductive Event : Type :=
| InsertProfileChange (row : ChangeInsert.t)
| InsertLoginHistory (row : LoginInsert.t)
| UpdateProfile (payload : ProfileUpdate.t) (eq_id : string)
| SelectProfile (eq_id : string)
| SelectProfileChanges (eq_user_id : string)
| SelectLoginHistory (eq_user_id : string)
| SignInWithPassword (email password : string)
| ToastSuccess (msg : string)
| ToastError (msg : string)
| ConsoleError (label : string) (err : Js.Error)
| Navigate (path : string).

(** A store answer [{ data, error }]: either the data or an error. *)
Inductive PgResponse (A : Type) : Type :=
| PgData (data : A)
| PgError (error : Js.Error).
Arguments PgData {A} data.
Arguments PgError {A} error.

(** The answer of [auth.signInWithPassword]: [{ data: { user }, error }]. *)
Record AuthResponse : Type := {
  auth_user : option User.t;
  auth_error : option Js.Error
}.

(** The outside world.  Each answer may depend on the whole history of
    effects so far, so every sequence of answers is some environment. *)
Record Env : Type := {
  Date_toISOString : list Event -> string;
  navigator_platform : string;
  navigator_userAgent : string;
  insert_profile_changes : list Event -> ChangeInsert.t -> Js.Awaited (PgResponse unit);
  insert_login_history : list Event -> LoginInsert.t -> Js.Awaited (PgResponse unit);
  update_profiles : list Event -> ProfileUpdate.t -> string -> Js.Awaited (PgResponse unit);
  select_profiles_single : list Event -> string -> Js.Awaited (PgResponse Profile.t);
  select_profile_changes : list Event -> string -> Js.Awaited (PgResponse (list ProfileChange.t));
  select_login_history : list Event -> string -> Js.Awaited (PgResponse (list LoginHistory.t));
  signInWithPassword : list Event -> string -> string -> Js.Awaited AuthResponse
}.

(* ------------------------------------------------------------------ *)
(** ** The monad of [async] handlers *)

Module Async.

Record World (St : Type) : Type := {
  state : St;                (* the component's state *)
  trace : list Event         (* effects issued so far, oldest first *)
}.
Arguments state {St} w.
Arguments trace {St} w.

(** How a statement ends: normally, or by throwing. *)
Inductive Completion (A : Type) : Type :=
| Normal (a : A)
| Throw (e : Js.Error).
Arguments Normal {A} a.
Arguments Throw {A} e.

Definition M (St A : Type) : Type := World St -> Completion A * World St.

Section Ops.
Context {St : Type}.

Definition ret {A} (a : A) : M St A := fun w => (Normal a, w).

Definition bind {A B} (m : M St A) (k : A -> M St B) : M St B :=
  fun w =>
    match m w with
    | (Normal a, w') => k a w'
    | (Throw e, w') => (Throw e, w')
    end.

Definition throw {A} (e : Js.Error) : M St A := fun w => (Throw e, w).

(** [try { body } catch (error) { handler }]. *)
Definition try_catch {A} (body : M St A) (handler : Js.Error -> M St A) : M St A :=
  fun w =>
    match body w with
    | (Normal a, w') => (Normal a, w')
    | (Throw e, w') => handler e w'
    end.

Definition when (b : bool) (m : M St unit) : M St unit :=
  if b then m else ret tt.

Definition emit (e : Event) : M St unit :=
  fun w => (Normal tt, {| state := state w; trace := trace w ++ [e] |}).

Definition get : M St St := fun w => (Normal (state w), w).

Definition modify (f : St -> St) : M St unit :=
  fun w => (Normal tt, {| state := f (state w); trace := trace w |}).

(** Reads the environment at the current history, with no effect. *)
Definition ask {A} (f : list Event -> A) : M St A :=
  fun w => (Normal (f (trace w)), w).

(** [await call]: the call is issued, then its answer is awaited; a
    rejected promise throws at the [await]. *)
Definition await {A} (call : Event) (answer : list Event -> Js.Awaited A) : M St A :=
  fun w =>
    let w' := {| state := state w; trace := trace w ++ [call] |} in
    match answer (trace w) with
    | Js.Resolved a => (Normal a, w')
    | Js.Rejected e => (Throw e, w')
    end.

End Ops.

End Async.

Import Async.

Notation "x <- c1 ;; c2" := (bind c1 (fun x => c2))
  (at level 61, c1 at next level, right associativity).
Notation "c1 ;; c2" := (bind c1 (fun _ => c2))
  (at level 61, right associativity).

(** The events a run added to the trace it started from: the handlers only
    append to the trace (lemma [onSubmit_trace_extends]). *)
Definition emitted {St} (w w' : World St) : list Event :=
  skipn (length (trace w)) (trace w').

(** Projections of a trace on the store calls that are counted. *)
Definition change_inserts (evs : list Event) : list ChangeInsert.t :=
  flat_map (fun e => match e with InsertProfileChange r => [r] | _ => [] end) evs.

Definition login_inserts (evs : list Event) : list LoginInsert.t :=
  flat_map (fun e => match e with InsertLoginHistory r => [r] | _ => [] end) evs.

Definition profile_updates (evs : list Event) : list (ProfileUpdate.t * string) :=
  flat_map (fun e => match e with UpdateProfile p i => [(p, i)] | _ => [] end) evs.

Definition is_store_write (e : Event) : bool :=
  match e with
  | InsertProfileChange _ | InsertLoginHistory _ | UpdateProfile _ _ => true
  | _ => false
  end.

Definition is_reload (e : Event) : bool :=
  match e with
  | SelectProfile _ | SelectProfileChanges _ => true
  | _ => false
  end.

Definition is_toast_success (e : Event) : bool :=
  match e with ToastSuccess _ => true | _ => false end.

Definition is_navigate (e : Event) : bool :=
  match e with Navigate _ => true | _ => false end.

(* ------------------------------------------------------------------ *)
(** ** [pages/Profile.tsx] *)

Module ProfilePage.

(** [type ProfileForm = z.infer<typeof profileSchema>]. *)
Record ProfileForm : Type := {
  firstName : string;
  lastName : string;
  phoneNumber : option string    (* [z.string().optional()] *)
}.

(** [profileSchema]: what the resolver accepts before [onSubmit] runs
    (lengths are counted in bytes here, which agrees with the source on
    ASCII names). *)
Definition profileSchema (data : ProfileForm) : bool :=
  Nat.leb 2 (String.length (firstName data)) && Nat.leb 2 (String.length (lastName data)).

(** The component's state: the [useAuth] user, the three [useState] cells
    and the values the form was last [reset] to. *)
Record State : Type := {
  user : option User.t;
  profile : option Profile.t;
  changes : list ProfileChange.t;
  loginHistory : list LoginHistory.t;
  form : option ProfileForm
}.

Definition setProfile (p : Profile.t) (s : State) : State :=
  {| user := user s; profile := Some p; changes := changes s;
     loginHistory := loginHistory s; form := form s |}.

Definition setChanges (c : list ProfileChange.t) (s : State) : State :=
  {| user := user s; profile := profile s; changes := c;
     loginHistory := loginHistory s; form := form s |}.

Definition setLoginHistory (h : list LoginHistory.t) (s : State) : State :=
  {| user := user s; profile := profile s; changes := changes s;
     loginHistory := h; form := form s |}.

Definition reset (f : ProfileForm) (s : State) : State :=
  {| user := user s; profile := profile s; changes := changes s;
     loginHistory := loginHistory s; form := Some f |}.

Section Handlers.
Variable env : Env.

Definition loadProfile : M State unit :=
  s <- get ;;
  match user s with
  | None => ret tt
  | Some u =>
      r <- await (SelectProfile (User.id u))
                 (fun h => select_profiles_single env h (User.id u)) ;;
      match r with
      | PgError _ => emit (ToastError "Failed to load profile")
      | PgData data =>
          modify (setProfile data) ;;
          modify (reset {| firstName := Profile.first_name data;
                           lastName := Profile.last_name data;
                           phoneNumber := Some (Js.or_empty (Profile.phone_number data)) |})
      end
  end.

Definition loadProfileChanges : M State unit :=
  s <- get ;;
  match user s with
  | None => ret tt
  | Some u =>
      r <- await (SelectProfileChanges (User.id u))
                 (fun h => select_profile_changes env h (User.id u)) ;;
      match r with
      | PgError _ => emit (ToastError "Failed to load profile changes")
      | PgData data => modify (setChanges data)
      end
  end.

Definition loadLoginHistory : M State unit :=
  s <- get ;;
  match user s with
  | None => ret tt
  | Some u =>
      r <- await (SelectLoginHistory (User.id u))
                 (fun h => select_login_history env h (User.id u)) ;;
      match r with
      | PgError _ => emit (ToastError "Failed to load login history")
      | PgData data => modify (setLoginHistory data)
      end
  end.

Definition recordProfileChange (fieldName : string) (oldValue newValue : option string)
  : M State unit :=
  s <- get ;;
  match user s with
  | None => ret tt
  | Some u =>
      let row := {| ChangeInsert.user_id := User.id u;
                    ChangeInsert.field_changed := fieldName;
                    ChangeInsert.old_value := oldValue;
                    ChangeInsert.new_value := newValue;
                    ChangeInsert.changed_by := User.id u |} in
      r <- await (InsertProfileChange row)
                 (fun h => insert_profile_changes env h row) ;;
      match r with
      | PgError error => emit (ConsoleError "Failed to record profile change:" error)
      | PgData _ => ret tt
      end
  end.

(** The three comparisons of [onSubmit]. *)
Definition firstName_differs (p : Profile.t) (data : ProfileForm) : bool :=
  negb (String.eqb (firstName data) (Profile.first_name p)).

Definition lastName_differs (p : Profile.t) (data : ProfileForm) : bool :=
  negb (String.eqb (lastName data) (Profile.last_name p)).

Definition phoneNumber_differs (p : Profile.t) (data : ProfileForm) : bool :=
  Js.strict_neq (Js.of_optional (phoneNumber data)) (Profile.phone_number p).

(** The body of the [try] block of [onSubmit], for the user and the
    snapshot the handler closed over. *)
Definition onSubmit_try (u : User.t) (p : Profile.t) (data : ProfileForm) : M State unit :=
  (* Record changes before updating *)
  when (firstName_differs p data)
       (recordProfileChange "first_name"
          (Some (Profile.first_name p)) (Some (firstName data))) ;;
  when (lastName_differs p data)
       (recordProfileChange "last_name"
          (Some (Profile.last_name p)) (Some (lastName data))) ;;
  when (phoneNumber_differs p data)
       (recordProfileChange "phone_number"
          (Js.or_null (Profile.phone_number p))
          (Js.or_null (Js.of_optional (phoneNumber data)))) ;;
  now <- ask (Date_toISOString env) ;;
  r <- await (UpdateProfile {| ProfileUpdate.first_name := firstName data;
                               ProfileUpdate.last_name := lastName data;
                               ProfileUpdate.phone_number := phoneNumber data;
                               ProfileUpdate.updated_at := now |} (User.id u))
             (fun h => update_profiles env h
                         {| ProfileUpdate.first_name := firstName data;
                            ProfileUpdate.last_name := lastName data;
                            ProfileUpdate.phone_number := phoneNumber data;
                            ProfileUpdate.updated_at := now |} (User.id u)) ;;
  match r with
  | PgError error => throw error
  | PgData _ =>
      emit (ToastSuccess "Profile updated successfully") ;;
      loadProfile ;;
      loadProfileChanges
  end.

Definition onSubmit (data : ProfileForm) : M State unit :=
  s <- get ;;
  match user s, profile s with
  | Some u, Some p =>
      try_catch (onSubmit_try u p data)
                (fun _ => emit (ToastError "Failed to update profile"))
  | _, _ => ret tt
  end.

End Handlers.

End ProfilePage.

(* ------------------------------------------------------------------ *)
(** ** [pages/Login.tsx] *)

Module LoginPage.

(** [type LoginForm = z.infer<typeof loginSchema>]. *)
Record LoginForm : Type := {
  email : string;
  password : string
}.

(** The component keeps no state of its own. *)
Definition State : Type := unit.

Section Handlers.
Variable env : Env.

Definition deviceInfo : string :=
  navigator_platform env ++ " - " ++ navigator_userAgent env.

Definition recordLoginAttempt (userId : string) (success : bool)
           (failureReason : option string) : M State unit :=
  try_catch
    (let row := {| LoginInsert.user_id := userId;
                   LoginInsert.success := success;
                   LoginInsert.device_info := deviceInfo;
                   LoginInsert.failure_reason := failureReason |} in
     _ <- await (InsertLoginHistory row)
                (fun h => insert_login_history env h row) ;;
     ret tt)
    (fun error => emit (ConsoleError "Failed to record login attempt:" error)).

(** The body of the [try] block of [onSubmit]. *)
Definition onSubmit_try (data : LoginForm) : M State unit :=
  r <- await (SignInWithPassword (email data) (password data))
             (fun h => signInWithPassword env h (email data) (password data)) ;;
  match auth_error r with
  | Some error =>
      recordLoginAttempt (email data) false (Some (Js.message error)) ;;
      throw error
  | None =>
      match auth_user r with
      | Some authUser => recordLoginAttempt (User.id authUser) true None
      | None => ret tt
      end ;;
      emit (Navigate "/")
  end.

Definition onSubmit (data : LoginForm) : M State unit :=
  try_catch (onSubmit_try data)
            (fun _ => emit (ToastError "Failed to sign in. Please check your credentials.")).

End Handlers.

End LoginPage.

(* ------------------------------------------------------------------ *)
(** ** Vocabulary of the statements *)

Module AuditSpec.
Import ProfilePage.

(** The row [recordProfileChange] builds for user [u]. *)
Definition change_row (u : User.t) (field : string) (old new : option string)
  : ChangeInsert.t :=
  {| ChangeInsert.user_id := User.id u;
     ChangeInsert.field_changed := field;
     ChangeInsert.old_value := old;
     ChangeInsert.new_value := new;
     ChangeInsert.changed_by := User.id u |}.

(** One row per field that differs, in the order first name, last name,
    phone number; the phone values with [''] and absent turned into [null]. *)
Definition audit_rows (u : User.t) (p : Profile.t) (data : ProfileForm)
  : list ChangeInsert.t :=
  (if firstName_differs p data
   then [change_row u "first_name" (Some (Profile.first_name p)) (Some (firstName data))]
   else []) ++
  (if lastName_differs p data
   then [change_row u "last_name" (Some (Profile.last_name p)) (Some (lastName data))]
   else []) ++
  (if phoneNumber_differs p data
   then [change_row u "phone_number"
                    (Js.or_null (Profile.phone_number p))
                    (Js.or_null (Js.of_optional (phoneNumber data)))]
   else []).

(** Equality of two values of type [string | null]. *)
Definition same_value (a b : option string) : bool :=
  match a, b with
  | Some s, Some t => String.eqb s t
  | None, None => true
  | _, _ => false
  end.

(** The diff of the phone number as the specification words it (section
    4.2): exact equality of the submitted value and the snapshot's value,
    with the empty string and an absent value treated as equal. *)
Definition spec_phone_differs (p : Profile.t) (data : ProfileForm) : bool :=
  negb (same_value (Js.or_null (Profile.phone_number p))
                   (Js.or_null (Js.of_optional (phoneNumber data)))).

(** K as the specification counts it: how many of the three mutable fields
    differ from the snapshot under that diff. *)
Definition spec_changed_count (p : Profile.t) (data : ProfileForm) : nat :=
  (if firstName_differs p data then 1 else 0) +
  (if lastName_differs p data then 1 else 0) +
  (if spec_phone_differs p data then 1 else 0).

(** Every insert into [profile_changes] among the events [evs] of a run
    that started at history [h] was answered by the store, with data or with
    an error: the store client reports a failed request in its answer. *)
Definition run_inserts_answered (env : Env) (h evs : list Event) : Prop :=
  forall pre row post,
    evs = (pre ++ InsertProfileChange row :: post)%list ->
    exists r, insert_profile_changes env (h ++ pre)%list row = Js.Resolved r.

(** The events of a run that precede its first [profiles] update. *)
Fixpoint before_update (evs : list Event) : list Event :=
  match evs with
  | [] => []
  | UpdateProfile _ _ :: _ => []
  | e :: rest => e :: before_update rest
  end.

(** The payload [onSubmit] sends when the clock reads [now]. *)
Definition update_payload (data : ProfileForm) (now : string) : ProfileUpdate.t :=
  {| ProfileUpdate.first_name := firstName data;
     ProfileUpdate.last_name := lastName data;
     ProfileUpdate.phone_number := phoneNumber data;
     ProfileUpdate.updated_at := now |}.

(** The store did not carry out the update: an error answer or a rejection. *)
Definition update_failed (a : Js.Awaited (PgResponse unit)) : Prop :=
  match a with
  | Js.Resolved (PgData _) => False
  | _ => True
  end.

(** Every insert into [profile_changes] is answered, with data or with
    an error; none is rejected. *)
Definition inserts_answered (env : Env) : Prop :=
  forall h row, exists r, insert_profile_changes env h row = Js.Resolved r.

(** What the audit steps may emit, and what the reload may emit. *)
Definition is_audit_event (e : Event) : bool :=
  match e with
  | InsertProfileChange _ | ConsoleError _ _ => true
  | _ => false
  end.

Definition is_reload_event (e : Event) : bool :=
  match e with
  | SelectProfile _ | SelectProfileChanges _ | ToastError _ => true
  | _ => false
  end.

(** The first three statements of the [try] block of [onSubmit], and the
    rest of it: [onSubmit_try] is the one followed by the other
    (lemma [onSubmit_try_phases]). *)
Definition audit_phase (env : Env) (p : Profile.t) (data : ProfileForm) : M State unit :=
  when (firstName_differs p data)
       (recordProfileChange env "first_name"
          (Some (Profile.first_name p)) (Some (firstName data))) ;;
  when (lastName_differs p data)
       (recordProfileChange env "last_name"
          (Some (Profile.last_name p)) (Some (lastName data))) ;;
  when (phoneNumber_differs p data)
       (recordProfileChange env "phone_number"
          (Js.or_null (Profile.phone_number p))
          (Js.or_null (Js.of_optional (phoneNumber data)))).

Definition commit_phase (env : Env) (u : User.t) (data : ProfileForm) : M State unit :=
  now <- ask (Date_toISOString env) ;;
  r <- await (UpdateProfile (update_payload data now) (User.id u))
             (fun h => update_profiles env h (update_payload data now) (User.id u)) ;;
  match r with
  | PgError error => throw error
  | PgData _ =>
      emit (ToastSuccess "Profile updated successfully") ;;
      loadProfile env ;;
      loadProfileChanges env
  end.

Definition update_call (env : Env) (u : User.t) (data : ProfileForm) (h : list Event)
  : Event :=
  UpdateProfile (update_payload data (Date_toISOString env h)) (User.id u).

Definition failure_toast : Event := ToastError "Failed to update profile".
Definition success_toast : Event := ToastSuccess "Profile updated successfully".

(** The three ways a submission with a user and a snapshot can end, as
    the component state it leaves and the events it emitted.  [pre] is
    what the audit steps emitted. *)
Inductive submit_outcome (env : Env) (w : World State) (u : User.t) (p : Profile.t)
          (data : ProfileForm) : State -> list Event -> Prop :=
| AuditRejected (pre : list Event) (more : list ChangeInsert.t) :
    forallb is_audit_event pre = true ->
    audit_rows u p data = (change_inserts pre ++ more)%list ->
    ~ inserts_answered env ->
    submit_outcome env w u p data (state w) (pre ++ [failure_toast])
| UpdateFailed (pre : list Event) :
    forallb is_audit_event pre = true ->
    change_inserts pre = audit_rows u p data ->
    update_failed (update_profiles env (trace w ++ pre)
                     (update_payload data (Date_toISOString env (trace w ++ pre)))
                     (User.id u)) ->
    submit_outcome env w u p data (state w)
      (pre ++ [update_call env u data (trace w ++ pre); failure_toast])
| Committed (pre post : list Event) (st : State) :
    forallb is_audit_event pre = true ->
    change_inserts pre = audit_rows u p data ->
    ~ update_failed (update_profiles env (trace w ++ pre)
                       (update_payload data (Date_toISOString env (trace w ++ pre)))
                       (User.id u)) ->
    forallb is_reload_event post = true ->
    submit_outcome env w u p data st
      (pre ++ update_call env u data (trace w ++ pre) :: success_toast :: post).

End AuditSpec.

Module LoginSpec.
Import LoginPage.

Definition record_failure_log (e : Js.Error) : Event :=
  ConsoleError "Failed to record login attempt:" e.

Definition login_row (env : Env) (userId : string) (success : bool)
           (failureReason : option string) : LoginInsert.t :=
  {| LoginInsert.user_id := userId;
     LoginInsert.success := success;
     LoginInsert.device_info := deviceInfo env;
     LoginInsert.failure_reason := failureReason |}.

(** What [recordLoginAttempt] may log after its insert: nothing, or the
    rejection of the insert. *)
Definition insert_logs (logs : list Event) : Prop :=
  logs = [] \/ exists e, logs = [record_failure_log e].

Definition sign_in_toast : Event :=
  ToastError "Failed to sign in. Please check your credentials.".

End LoginSpec.

(* ------------------------------------------------------------------ *)
(** ** Concrete users, rows and environments *)

Module Scenario.
Import ProfilePage.

Definition U1 : User.t := {| User.id := "U1" |}.

Definition ann (phone : Js.OptString) : Profile.t :=
  {| Profile.id := "U1";
     Profile.first_name := "Ann";
     Profile.last_name := "Lee";
     Profile.phone_number := phone;
     Profile.created_at := "2025-01-31T20:52:21.000Z";
     Profile.updated_at := "2025-01-31T20:52:21.000Z" |}.

(** An environment of constant answers. *)
Definition constant_env
           (change_answer login_answer update_answer : Js.Awaited (PgResponse unit))
           (row : Profile.t) (auth_answer : Js.Awaited AuthResponse) : Env :=
  {| Date_toISOString := fun _ => "2025-02-01T09:00:00.000Z";
     navigator_platform := "Linux x86_64";
     navigator_userAgent := "Mozilla/5.0";
     insert_profile_changes := fun _ _ => change_answer;
     insert_login_history := fun _ _ => login_answer;
     update_profiles := fun _ _ _ => update_answer;
     select_profiles_single := fun _ _ => Js.Resolved (PgData row);
     select_profile_changes := fun _ _ => Js.Resolved (PgData []);
     select_login_history := fun _ _ => Js.Resolved (PgData []);
     signInWithPassword := fun _ _ _ => auth_answer |}.

Definition ok : Js.Awaited (PgResponse unit) := Js.Resolved (PgData tt).
Definition refused : Js.Awaited (PgResponse unit) :=
  Js.Resolved (PgError {| Js.message := "new row violates row-level security policy" |}).
Definition unreachable : Js.Awaited (PgResponse unit) :=
  Js.Rejected {| Js.message := "Failed to fetch" |}.

Definition invalid_credentials : Js.Error :=
  {| Js.message := "Invalid login credentials" |}.

Definition sign_in_ok : Js.Awaited AuthResponse :=
  Js.Resolved {| auth_user := Some U1; auth_error := None |}.
Definition sign_in_rejected : Js.Awaited AuthResponse :=
  Js.Resolved {| auth_user := None; auth_error := Some invalid_credentials |}.

(** The store accepts every write; the stored profile has phone [phone]. *)
Definition store_ok (phone : Js.OptString) : Env :=
  constant_env ok ok ok (ann phone) sign_in_ok.

(** The page of user U1 with snapshot [p] loaded and nothing issued yet. *)
Definition loaded (p : Profile.t) : World State :=
  {| state := {| user := Some U1; profile := Some p; changes := [];
                 loginHistory := [];
                 form := Some {| firstName := Profile.first_name p;
                                 lastName := Profile.last_name p;
                                 phoneNumber := Some (Js.or_empty (Profile.phone_number p)) |} |};
     trace := [] |}.

(** The page of user U1 before anything was loaded. *)
Definition fresh : World State :=
  {| state := {| user := Some U1; profile := None; changes := [];
                 loginHistory := []; form := None |};
     trace := [] |}.

Definition submit (first last : string) (phone : option string) : ProfileForm :=
  {| firstName := first; lastName := last; phoneNumber := phone |}.

Definition login_page : World LoginPage.State := {| state := tt; trace := [] |}.

Definition credentials : LoginPage.LoginForm :=
  {| LoginPage.email := "a@b.com"; LoginPage.password := "correct horse" |}.

End Scenario.

(* ------------------------------------------------------------------ *)
(** ** Frame conditions and the other behaviours of the handlers *)

Module Frame.

Section Keeps.
Context {St : Type}.
Variable R : St -> St -> Prop.     (* how the state may change *)
Variable Q : Event -> bool.        (* which events may be emitted *)

(** A computation that, from every world, changes the state within [R] and
    only appends events allowed by [Q], however it ends. *)
Definition keeps {A : Type} (m : M St A) : Prop :=
  forall w,
    R (state w) (state (snd (m w)))
    /\ exists evs, trace (snd (m w)) = (trace w ++ evs)%list /\ forallb Q evs = true.

End Keeps.

Import ProfilePage.

(** The cells each handler of the profile page leaves alone. *)
Definition same_session (s s' : State) : Prop :=
  user s' = user s /\ loginHistory s' = loginHistory s.

Definition only_snapshot_and_form (s s' : State) : Prop :=
  user s' = user s /\ changes s' = changes s /\ loginHistory s' = loginHistory s.

Definition only_changes (s s' : State) : Prop :=
  user s' = user s /\ profile s' = profile s
  /\ loginHistory s' = loginHistory s /\ form s' = form s.

Definition only_loginHistory (s s' : State) : Prop :=
  user s' = user s /\ profile s' = profile s
  /\ changes s' = changes s /\ form s' = form s.

(** Events of the profile page's submit handler: neither sign-in, nor
    login history, nor navigation. *)
Definition is_profile_submit_event (e : Event) : bool :=
  match e with
  | InsertLoginHistory _ | SelectLoginHistory _ | SignInWithPassword _ _ | Navigate _ => false
  | _ => true
  end.

(** Events of a loader: one kind of select, and the failure toast. *)
Definition is_read_event (e : Event) : bool :=
  match e with
  | SelectProfile _ | SelectProfileChanges _ | SelectLoginHistory _ | ToastError _ => true
  | _ => false
  end.

Definition is_select (e : Event) : bool :=
  match e with
  | SelectProfile _ | SelectProfileChanges _ | SelectLoginHistory _ => true
  | _ => false
  end.

(** Events of the sign-in handler. *)
Definition is_sign_in_event (e : Event) : bool :=
  match e with
  | SignInWithPassword _ _ | InsertLoginHistory _ | ConsoleError _ _
  | ToastError _ | Navigate _ => true
  | _ => false
  end.

(** The form [loadProfile] resets to for a loaded row. *)
Definition form_of (row : Profile.t) : ProfileForm :=
  {| firstName := Profile.first_name row;
     lastName := Profile.last_name row;
     phoneNumber := Some (Js.or_empty (Profile.phone_number row)) |}.

(** The [login_history] rows a sign-in submission inserts, read off the
    provider's answer at history [h]. *)
Definition sign_in_rows (env : Env) (h : list Event) (data : LoginPage.LoginForm)
  : list LoginInsert.t :=
  match signInWithPassword env h (LoginPage.email data) (LoginPage.password data) with
  | Js.Rejected _ => []
  | Js.Resolved r =>
      match auth_error r with
      | Some error =>
          [LoginSpec.login_row env (LoginPage.email data) false (Some (Js.message error))]
      | None =>
          match auth_user r with
          | Some authUser => [LoginSpec.login_row env (User.id authUser) true None]
          | None => []
          end
      end
  end.

(** The provider answered the sign-in and reported no error. *)
Definition sign_in_accepted (env : Env) (h : list Event) (data : LoginPage.LoginForm) : bool :=
  match signInWithPassword env h (LoginPage.email data) (LoginPage.password data) with
  | Js.Resolved r => match auth_error r with None => true | Some _ => false end
  | Js.Rejected _ => false
  end.

End Frame.

(* ------------------------------------------------------------------ *)
(** ** The form schemas ([loginSchema], [registerSchema]) *)

Module Schemas.

(** A character of a Rocq string stands for one UTF-16 code unit below 256,
    so [String.length] is the [length] the schemas compare. *)
Definition in_range (lo hi : Ascii.ascii) (c : Ascii.ascii) : bool :=
  Nat.leb (Ascii.nat_of_ascii lo) (Ascii.nat_of_ascii c)
  && Nat.leb (Ascii.nat_of_ascii c) (Ascii.nat_of_ascii hi).

Definition is_upper : Ascii.ascii -> bool := in_range "A" "Z".     (* [A-Z] *)
Definition is_lower : Ascii.ascii -> bool := in_range "a" "z".     (* [a-z] *)
Definition is_digit : Ascii.ascii -> bool := in_range "0" "9".     (* [0-9] *)
Definition is_other (c : Ascii.ascii) : bool :=                    (* [^A-Za-z0-9] *)
  negb (is_upper c || is_lower c || is_digit c).

(** [.regex(/[class]/)]: some character of the string is in the class. *)
Definition matches (class : Ascii.ascii -> bool) (s : string) : bool :=
  existsb class (list_ascii_of_string s).

(** [z.string().min(n)]. *)
Definition min (n : nat) (s : string) : bool := Nat.leb n (String.length s).

(** [type RegisterForm = z.infer<typeof registerSchema>]. *)
Record RegisterForm : Type := {
  firstName : string;
  lastName : string;
  email : string;
  password : string;
  phoneNumber : option string
}.

(** The password rule of [registerSchema]. *)
Definition register_password (pw : string) : bool :=
  min 8 pw && matches is_upper pw && matches is_lower pw
  && matches is_digit pw && matches is_other pw.

Section WithEmail.
(** [z.string().email(...)]: the check of the validation library, which is
    not part of this repository. *)
Variable isEmail : string -> bool.

Definition loginSchema (data : LoginPage.LoginForm) : bool :=
  isEmail (LoginPage.email data) && min 8 (LoginPage.password data).

Definition registerSchema (data : RegisterForm) : bool :=
  min 2 (firstName data) && min 2 (lastName data)
  && isEmail (email data) && register_password (password data).

End WithEmail.

End Schemas.

(* ------------------------------------------------------------------ *)
(** ** [pages/Register.tsx] and the sign-out of [components/Navbar.tsx] *)

Module AuthPages.
Import Schemas.

(** [options.data] of [auth.signUp]. *)
Record SignUpData : Type := {
  first_name : string;
  last_name : string;
  phone_number : option string     (* [data.phoneNumber], possibly [undefined] *)
}.

(** The calls these two handlers make to the identity provider.  They have
    no constructor in [Event]; the world of these handlers keeps them, in the
    order issued, as its state. *)
Inductive AuthCall : Type :=
| SignUp (email password : string) (data : SignUpData)
| SignOut.

Definition State : Type := list AuthCall.

(** The provider's answers [{ error }], which may depend on what happened
    before. *)
Record AuthEnv : Type := {
  signUp : list AuthCall -> list Event -> string -> string -> SignUpData
           -> Js.Awaited (option Js.Error);
  signOut : list AuthCall -> list Event -> Js.Awaited (option Js.Error)
}.

(** [await] of a call to the identity provider. *)
Definition await_auth {A} (call : AuthCall)
           (answer : list AuthCall -> list Event -> Js.Awaited A) : M State A :=
  fun w =>
    let w' := {| state := (state w ++ [call])%list; trace := trace w |} in
    match answer (state w) (trace w) with
    | Js.Resolved a => (Normal a, w')
    | Js.Rejected e => (Throw e, w')
    end.

Section Handlers.
Variable auth : AuthEnv.

Definition signUp_data (data : RegisterForm) : SignUpData :=
  {| first_name := firstName data;
     last_name := lastName data;
     phone_number := phoneNumber data |}.

(** [onSubmit] of the registration form. *)
Definition Register_onSubmit (data : RegisterForm) : M State unit :=
  try_catch
    (error <- await_auth (SignUp (email data) (password data) (signUp_data data))
                         (fun calls h => signUp auth calls h (email data) (password data)
                                           (signUp_data data)) ;;
     match error with
     | Some error => throw error
     | None =>
         emit (ToastSuccess "Registration successful! Please sign in.") ;;
         emit (Navigate "/login")
     end)
    (fun _ => emit (ToastError "Failed to register. Please try again.")).

(** [handleLogout] of the navigation bar. *)
Definition handleLogout : M State unit :=
  _ <- await_auth SignOut (signOut auth) ;;
  emit (Navigate "/login").

End Handlers.

End AuthPages.

(* ------------------------------------------------------------------ *)
(** ** The sign-up trigger of the first migration *)

Module Migration.

(** [COALESCE(a, d)] with a non-null default. *)
Definition coalesce (a : option string) (d : string) : string :=
  match a with
  | Some s => s
  | None => d
  end.

(** [handle_new_user()]: the [profiles] row inserted for the new
    [auth.users] row [NEW].  [meta key] is [NEW.raw_user_meta_data->>key],
    [None] for SQL NULL; the columns the INSERT does not name take their
    defaults: NULL for [phone_number], [now()] for the two timestamps. *)
Definition handle_new_user (new_id : string) (meta : string -> option string)
           (now : string) : Profile.t :=
  {| Profile.id := new_id;
     Profile.first_name := coalesce (meta "first_name") "";
     Profile.last_name := coalesce (meta "last_name") "";
     Profile.phone_number := Js.Null;
     Profile.created_at := now;
     Profile.updated_at := now |}.

(** The user metadata as [->>] reads it when it is the [options.data] object
    of a sign-up call: an [undefined] property is not part of the object. *)
Definition meta_of (data : AuthPages.SignUpData) (key : string) : option string :=
  if String.eqb key "first_name" then Some (AuthPages.first_name data)
  else if String.eqb key "last_name" then Some (AuthPages.last_name data)
  else if String.eqb key "phone_number" then AuthPages.phone_number data
  else None.

End Migration.

(* ------------------------------------------------------------------ *)
(** ** Route guards ([App.tsx], [ProtectedRoute.tsx], [AuthLayout.tsx]) *)

Module Routing.

(** What [useAuth()] returns. *)
Record AuthState : Type := {
  user : option User.t;
  loading : bool
}.

(** The four routes of [App]. *)
Inductive Route : Type :=
| LoginRoute
| RegisterRoute
| DashboardRoute
| ProfileRoute.

Definition path (r : Route) : string :=
  match r with
  | LoginRoute => "/login"
  | RegisterRoute => "/register"
  | DashboardRoute => "/"
  | ProfileRoute => "/profile"
  end.

(** What a layout route renders. *)
Inductive Element : Type :=
| LoadingText                                   (* <div>Loading...</div> *)
| NavigateTo (to : string) (replace : bool)     (* <Navigate to=... replace /> *)
| AuthCard (title : string) (outlet : Route)    (* the card of AuthLayout around <Outlet /> *)
| Shell (outlet : Route).                       (* Navbar and <main> around <Outlet /> *)

Definition ProtectedRoute (a : AuthState) (outlet : Route) : Element :=
  if loading a then LoadingText
  else match user a with
       | None => NavigateTo "/login" true
       | Some _ => Shell outlet
       end.

Definition AuthLayout (a : AuthState) (pathname : string) (outlet : Route) : Element :=
  match user a with
  | Some _ => NavigateTo "/" true
  | None =>
      AuthCard (if String.eqb pathname "/login"
                then "Sign in to your account" else "Create your account")
               outlet
  end.

(** [App] at the location of route [r]. *)
Definition App (a : AuthState) (r : Route) : Element :=
  match r with
  | LoginRoute | RegisterRoute => AuthLayout a (path r) r
  | DashboardRoute | ProfileRoute => ProtectedRoute a r
  end.


Definition is_protected (r : Route) : bool :=
  match r with
  | DashboardRoute | ProfileRoute => true
  | _ => false
  end.



End Routing.

(* ------------------------------------------------------------------ *)
(** ** The history tables of the profile page *)

Module ProfileView.

(** [{value || '-'}] for a nullable column. *)
Definition cell (value : option string) : string :=
  match value with
  | Some s => if String.eqb s "" then "-" else s
  | None => "-"
  end.

(** What the table is to show for a nullable value: "-" for an absent
    value and for the empty string, the value itself otherwise. *)
Definition shown_as (value : option string) (text : string) : Prop :=
  (text = "-" /\ (value = None \/ value = Some ""))
  \/ (value = Some text /\ text <> "").

(** One line of the change table: field, old value, new value and the
    timestamp handed to [Date]. *)
Definition change_line (change : ProfileChange.t) : string * string * string * string :=
  (ProfileChange.field_changed change,
   cell (ProfileChange.old_value change),
   cell (ProfileChange.new_value change),
   ProfileChange.change_timestamp change).

(** The change-history card: the table, or the text shown in its place. *)
Definition changes_card (changes : list ProfileChange.t)
  : (list (string * string * string * string)) + string :=
  if Nat.ltb 0 (length changes)
  then inl (map change_line changes)
  else inr "No profile changes recorded yet.".

(** The status cell of a login line: the badge text, and the reason shown
    after it, if any. *)
Definition status_cell (login : LoginHistory.t) : string * option string :=
  (if LoginHistory.success login then "Success" else "Failed",
   if negb (LoginHistory.success login)
   then match LoginHistory.failure_reason login with
        | Some reason =>
            if String.eqb reason "" then None else Some ("(" ++ reason ++ ")")%string
        | None => None
        end
   else None).

End ProfileView.

(* ------------------------------------------------------------------ *)
(** ** Traces *)

Open Scope list_scope.

Ltac split_ands := repeat match goal with |- _ /\ _ => split end.

Section TraceFacts.

Lemma emitted_app {St} (w w' : World St) (evs : list Event) :
  trace w' = trace w ++ evs -> emitted w w' = evs.
Proof.
  intros E. unfold emitted. rewrite E. clear E.
  generalize (trace w). intros h. induction h as [|e h IH]; simpl; auto.
Qed.

Lemma emitted_eq {St} (w : World St) (st : St) (tr evs : list Event) :
  tr = trace w ++ evs -> emitted w {| state := st; trace := tr |} = evs.
Proof. intros E. now apply emitted_app. Qed.

Lemma emitted_refl {St} (w : World St) : emitted w w = [].
Proof. apply emitted_app. now rewrite app_nil_r. Qed.

Lemma change_inserts_app (a b : list Event) :
  change_inserts (a ++ b) = change_inserts a ++ change_inserts b.
Proof. apply flat_map_app. Qed.

Lemma login_inserts_app (a b : list Event) :
  login_inserts (a ++ b) = login_inserts a ++ login_inserts b.
Proof. apply flat_map_app. Qed.

Lemma profile_updates_app (a b : list Event) :
  profile_updates (a ++ b) = profile_updates a ++ profile_updates b.
Proof. apply flat_map_app. Qed.

Lemma audit_events_no_update (pre : list Event) :
  forallb AuditSpec.is_audit_event pre = true -> profile_updates pre = [].
Proof.
  induction pre as [|e pre IH]; simpl; auto.
  intros H. apply andb_prop in H as [He Hpre].
  destruct e; simpl in *; try discriminate; auto.
Qed.

Lemma audit_events_quiet (pre : list Event) :
  forallb AuditSpec.is_audit_event pre = true ->
  existsb is_toast_success pre = false /\ existsb is_reload pre = false.
Proof.
  induction pre as [|e pre IH]; simpl; auto.
  intros H. apply andb_prop in H as [He Hpre].
  destruct (IH Hpre) as [IH1 IH2].
  destruct e; simpl in *; try discriminate; auto.
Qed.

Lemma reload_events_no_write (post : list Event) :
  forallb AuditSpec.is_reload_event post = true ->
  change_inserts post = [] /\ profile_updates post = [].
Proof.
  induction post as [|e post IH]; simpl; auto.
  intros H. apply andb_prop in H as [He Hpost].
  destruct (IH Hpost) as [IH1 IH2].
  destruct e; simpl in *; try discriminate; auto.
Qed.

Lemma before_update_audit (pre rest : list Event) (payload : ProfileUpdate.t) (i : string) :
  forallb AuditSpec.is_audit_event pre = true ->
  AuditSpec.before_update (pre ++ UpdateProfile payload i :: rest) = pre.
Proof.
  induction pre as [|e pre IH]; simpl; auto.
  intros H. apply andb_prop in H as [He Hpre].
  destruct e; simpl in *; try discriminate; now rewrite IH.
Qed.

Lemma before_update_no_update (evs : list Event) :
  profile_updates evs = [] -> AuditSpec.before_update evs = evs.
Proof.
  induction evs as [|e evs IH]; simpl; auto.
  destruct e; simpl; try discriminate; intros H; now rewrite IH.
Qed.

Lemma forallb_app_true {A} (f : A -> bool) (a b : list A) :
  forallb f a = true -> forallb f b = true -> forallb f (a ++ b) = true.
Proof. intros Ha Hb. rewrite forallb_app, Ha, Hb. reflexivity. Qed.

End TraceFacts.

(* ------------------------------------------------------------------ *)
(** ** How the profile handlers run *)

Module ProfileRun.
Import ProfilePage AuditSpec.

Section Run.
Variable env : Env.

(** [recordProfileChange] issues its insert and ends by what the store
    answers: an error answer is logged, a rejection is thrown on. *)
Lemma recordProfileChange_run (f : string) (o n : option string)
      (w : World State) (u : User.t) :
  user (state w) = Some u ->
  recordProfileChange env f o n w =
  let call := InsertProfileChange (change_row u f o n) in
  match insert_profile_changes env (trace w) (change_row u f o n) with
  | Js.Resolved (PgData _) =>
      (Normal tt, {| state := state w; trace := trace w ++ [call] |})
  | Js.Resolved (PgError e) =>
      (Normal tt,
       {| state := state w;
          trace := trace w ++ [call; ConsoleError "Failed to record profile change:" e] |})
  | Js.Rejected e =>
      (Throw e, {| state := state w; trace := trace w ++ [call] |})
  end.
Proof.
  intros Hu. unfold recordProfileChange, bind, get, await, emit, ret.
  rewrite Hu. unfold change_row. simpl.
  destruct (insert_profile_changes env (trace w) _) as [[d|e]|e]; simpl; auto.
  now rewrite <- app_assoc.
Qed.

(** One guarded audit step. *)
Lemma audit_step (b : bool) (f : string) (o n : option string)
      (w : World State) (u : User.t) :
  user (state w) = Some u ->
  exists c logs,
    when b (recordProfileChange env f o n) w =
    (c, {| state := state w;
           trace := trace w ++
                    (if b then [InsertProfileChange (change_row u f o n)] else []) ++ logs |})
    /\ forallb is_audit_event logs = true
    /\ change_inserts logs = []
    /\ (c = Normal tt \/ exists e, c = Throw e)
    /\ (inserts_answered env -> c = Normal tt).
Proof.
  intros Hu. destruct b; simpl.
  - rewrite (recordProfileChange_run f o n w u Hu). simpl.
    destruct (insert_profile_changes env (trace w) (change_row u f o n))
      as [[d|e]|e] eqn:E.
    + exists (Normal tt), []. split_ands; auto.
    + exists (Normal tt), [ConsoleError "Failed to record profile change:" e].
      split_ands; auto.
    + exists (Throw e), []. split_ands; eauto.
      intros Ha. destruct (Ha (trace w) (change_row u f o n)) as [r Hr].
      congruence.
  - exists (Normal tt), []. unfold ret. destruct w as [st tr]. simpl.
    rewrite app_nil_r. split_ands; auto.
Qed.

Lemma onSubmit_try_phases (u : User.t) (p : Profile.t) (data : ProfileForm)
      (w : World State) :
  onSubmit_try env u p data w = (audit_phase env p data ;; commit_phase env u data) w.
Proof.
  unfold onSubmit_try, audit_phase, commit_phase, update_payload, bind.
  destruct (when (firstName_differs p data) _ w) as [[[]|e1] w1]; auto.
  destruct (when (lastName_differs p data) _ w1) as [[[]|e2] w2]; auto.
Qed.

(** The audit steps leave the state alone and emit, in field order, the
    rows of the differing fields, up to the first rejected insert. *)
Lemma audit_phase_run (u : User.t) (p : Profile.t) (data : ProfileForm)
      (w : World State) :
  user (state w) = Some u ->
  exists c pre more,
    audit_phase env p data w = (c, {| state := state w; trace := trace w ++ pre |})
    /\ forallb is_audit_event pre = true
    /\ audit_rows u p data = change_inserts pre ++ more
    /\ (c = Normal tt /\ more = [] \/ (exists e, c = Throw e) /\ ~ inserts_answered env).
Proof.
  intros Hu. unfold audit_phase, audit_rows, bind.
  set (r1 := change_row u "first_name" _ _).
  set (r2 := change_row u "last_name" _ _).
  set (r3 := change_row u "phone_number" _ _).
  destruct (audit_step (firstName_differs p data) "first_name"
              (Some (Profile.first_name p)) (Some (firstName data)) w u Hu)
    as (c1 & l1 & E1 & A1 & I1 & C1 & N1).
  fold r1 in E1. rewrite E1.
  set (s1 := if firstName_differs p data then [InsertProfileChange r1] else []) in *.
  assert (S1 : forallb is_audit_event s1 = true /\
               change_inserts s1 = if firstName_differs p data then [r1] else []).
  { subst s1. destruct (firstName_differs p data); auto. }
  destruct S1 as [S1a S1c].
  destruct C1 as [-> | [e ->]].
  2:{ exists (Throw e), (s1 ++ l1),
        ((if lastName_differs p data then [r2] else []) ++
         (if phoneNumber_differs p data then [r3] else [])).
      split_ands; [reflexivity | | | right].
      - auto using forallb_app_true.
      - rewrite !change_inserts_app, I1, S1c, app_nil_r. reflexivity.
      - split; eauto. intros Ha. specialize (N1 Ha). discriminate. }
  set (w1 := {| state := state w; trace := trace w ++ s1 ++ l1 |}).
  destruct (audit_step (lastName_differs p data) "last_name"
              (Some (Profile.last_name p)) (Some (lastName data)) w1 u Hu)
    as (c2 & l2 & E2 & A2 & I2 & C2 & N2).
  fold r2 in E2. rewrite E2. simpl state. simpl trace.
  set (s2 := if lastName_differs p data then [InsertProfileChange r2] else []) in *.
  assert (S2 : forallb is_audit_event s2 = true /\
               change_inserts s2 = if lastName_differs p data then [r2] else []).
  { subst s2. destruct (lastName_differs p data); auto. }
  destruct S2 as [S2a S2c].
  destruct C2 as [-> | [e ->]].
  2:{ exists (Throw e), ((s1 ++ l1) ++ s2 ++ l2),
        (if phoneNumber_differs p data then [r3] else []).
      split_ands; [now rewrite <- app_assoc | | | right].
      - auto using forallb_app_true.
      - rewrite !change_inserts_app, I1, I2, S1c, S2c, !app_nil_r, <- app_assoc.
        reflexivity.
      - split; eauto. intros Ha. specialize (N2 Ha). discriminate. }
  set (w2 := {| state := state w; trace := (trace w ++ s1 ++ l1) ++ s2 ++ l2 |}).
  destruct (audit_step (phoneNumber_differs p data) "phone_number"
              (Js.or_null (Profile.phone_number p))
              (Js.or_null (Js.of_optional (phoneNumber data))) w2 u Hu)
    as (c3 & l3 & E3 & A3 & I3 & C3 & N3).
  fold r3 in E3. rewrite E3. simpl state. simpl trace.
  set (s3 := if phoneNumber_differs p data then [InsertProfileChange r3] else []) in *.
  assert (S3 : forallb is_audit_event s3 = true /\
               change_inserts s3 = if phoneNumber_differs p data then [r3] else []).
  { subst s3. destruct (phoneNumber_differs p data); auto. }
  destruct S3 as [S3a S3c].
  exists c3, (((s1 ++ l1) ++ s2 ++ l2) ++ s3 ++ l3), [].
  split_ands.
  - now rewrite <- !app_assoc.
  - auto using forallb_app_true.
  - rewrite !change_inserts_app, I1, I2, I3, S1c, S2c, S3c, !app_nil_r, <- app_assoc.
    reflexivity.
  - destruct C3 as [-> | [e ->]]; [left; auto | right].
    split; eauto. intros Ha. specialize (N3 Ha). discriminate.
Qed.

Lemma loadProfile_run (w : World State) :
  exists c st post,
    loadProfile env w = (c, {| state := st; trace := trace w ++ post |})
    /\ forallb is_reload_event post = true.
Proof.
  unfold loadProfile, bind, get, await, emit, modify, ret.
  destruct (user (state w)) as [u|].
  - destruct (select_profiles_single env (trace w) (User.id u)) as [[d|e]|e]; simpl.
    + do 3 eexists. split; [reflexivity | reflexivity].
    + do 3 eexists. rewrite <- app_assoc. split; [reflexivity | reflexivity].
    + do 3 eexists. split; [reflexivity | reflexivity].
  - exists (Normal tt), (state w), []. rewrite app_nil_r. destruct w; auto.
Qed.

Lemma loadProfileChanges_run (w : World State) :
  exists c st post,
    loadProfileChanges env w = (c, {| state := st; trace := trace w ++ post |})
    /\ forallb is_reload_event post = true.
Proof.
  unfold loadProfileChanges, bind, get, await, emit, modify, ret.
  destruct (user (state w)) as [u|].
  - destruct (select_profile_changes env (trace w) (User.id u)) as [[d|e]|e]; simpl.
    + do 3 eexists. split; [reflexivity | reflexivity].
    + do 3 eexists. rewrite <- app_assoc. split; [reflexivity | reflexivity].
    + do 3 eexists. split; [reflexivity | reflexivity].
  - exists (Normal tt), (state w), []. rewrite app_nil_r. destruct w; auto.
Qed.

(** The commit: one update, sent with the clock's reading; on a failed
    update nothing else happens in the [try] block, otherwise the
    success toast and the two reloads follow. *)
Lemma commit_phase_run (u : User.t) (data : ProfileForm) (w : World State) :
  let answer := update_profiles env (trace w)
                  (update_payload data (Date_toISOString env (trace w))) (User.id u) in
  (update_failed answer /\
   exists e, commit_phase env u data w =
             (Throw e, {| state := state w;
                          trace := trace w ++ [update_call env u data (trace w)] |}))
  \/
  (~ update_failed answer /\
   exists c st post,
     commit_phase env u data w =
     (c, {| state := st;
            trace := trace w ++ update_call env u data (trace w) :: success_toast :: post |})
     /\ forallb is_reload_event post = true).
Proof.
  unfold commit_phase, update_call, bind, ask, await, emit, throw. simpl.
  destruct (update_profiles env (trace w) _ (User.id u)) as [[d|e]|e]; simpl.
  - right. split; [tauto|].
    set (w1 := {| state := state w; trace := _ |}).
    destruct (loadProfile_run w1) as (c1 & st1 & post1 & E1 & R1). rewrite E1.
    destruct c1 as [[]|e1].
    + set (w2 := {| state := st1; trace := _ |}).
      destruct (loadProfileChanges_run w2) as (c2 & st2 & post2 & E2 & R2).
      rewrite E2. exists c2, st2, (post1 ++ post2). split.
      * subst w2 w1. simpl. f_equal. f_equal.
        rewrite <- !app_assoc. reflexivity.
      * auto using forallb_app_true.
    + exists (Throw e1), st1, post1. split; auto.
      subst w1. simpl. f_equal. f_equal. rewrite <- !app_assoc. reflexivity.
  - left. split; [exact I|]. eauto.
  - left. split; [exact I|]. eauto.
Qed.

(** Every submission with a user and a snapshot ends normally, in one
    of the three outcomes, and only adds to the trace. *)
Lemma onSubmit_outcome (w : World State) (u : User.t) (p : Profile.t)
      (data : ProfileForm) :
  user (state w) = Some u -> profile (state w) = Some p ->
  fst (onSubmit env data w) = Normal tt /\
  trace (snd (onSubmit env data w)) = trace w ++ emitted w (snd (onSubmit env data w)) /\
  submit_outcome env w u p data
    (state (snd (onSubmit env data w))) (emitted w (snd (onSubmit env data w))).
Proof.
  intros Hu Hp. unfold onSubmit, bind, get. rewrite Hu, Hp.
  unfold try_catch. rewrite onSubmit_try_phases. unfold bind.
  destruct (audit_phase_run u p data w Hu)
    as (c & pre & more & E & A & R & [[-> ->] | [[e ->] Hn]]); rewrite E.
  - rewrite app_nil_r in R.
    set (w1 := {| state := state w; trace := trace w ++ pre |}).
    destruct (commit_phase_run u data w1)
      as [[F [e Ec]] | [F (c & st & post & Ec & Rl)]]; rewrite Ec.
    + unfold emit. simpl.
      assert (T : ((trace w ++ pre) ++ [update_call env u data (trace w ++ pre)]) ++
                  [ToastError "Failed to update profile"]
                  = trace w ++ pre ++ [update_call env u data (trace w ++ pre); failure_toast]).
      { rewrite <- !app_assoc. reflexivity. }
      rewrite (emitted_eq w _ _ _ T), T.
      split_ands; auto. now apply UpdateFailed.
    + destruct c as [[]|e]; simpl.
      * assert (T : (trace w ++ pre) ++
                    update_call env u data (trace w ++ pre) :: success_toast :: post
                    = trace w ++ pre ++
                      update_call env u data (trace w ++ pre) :: success_toast :: post).
        { rewrite <- !app_assoc. reflexivity. }
        rewrite (emitted_eq w _ _ _ T), T.
        split_ands; auto. now apply Committed.
      * unfold emit. simpl.
        assert (T : ((trace w ++ pre) ++
                     update_call env u data (trace w ++ pre) :: success_toast :: post) ++
                    [ToastError "Failed to update profile"]
                    = trace w ++ pre ++
                      update_call env u data (trace w ++ pre)
                      :: success_toast :: post ++ [failure_toast]).
        { rewrite <- !app_assoc. reflexivity. }
        rewrite (emitted_eq w _ _ _ T), T.
        split_ands; auto.
        apply (Committed env w u p data pre (post ++ [failure_toast])); auto.
        apply forallb_app_true; auto.
  - unfold emit. simpl.
    assert (T : (trace w ++ pre) ++ [ToastError "Failed to update profile"]
                = trace w ++ pre ++ [failure_toast]).
    { rewrite <- !app_assoc. reflexivity. }
    rewrite (emitted_eq w _ _ _ T), T.
    split_ands; auto. now apply (AuditRejected env w u p data pre more).
Qed.


(** An insert that is rejected is thrown on by [recordProfileChange]. *)
Lemma recordProfileChange_rejected (f : string) (o n : option string)
      (w : World State) (u : User.t) (e : Js.Error) :
  user (state w) = Some u ->
  insert_profile_changes env (trace w) (change_row u f o n) = Js.Rejected e ->
  fst (recordProfileChange env f o n w) = Throw e.
Proof.
  intros Hu Hr. rewrite (recordProfileChange_run f o n w u Hu). simpl.
  rewrite Hr. reflexivity.
Qed.

(** Without a user or without a snapshot the handler returns at once. *)
Lemma onSubmit_guard (w : World State) (data : ProfileForm) :
  user (state w) = None \/ profile (state w) = None ->
  onSubmit env data w = (Normal tt, w).
Proof.
  intros H. unfold onSubmit, bind, get, ret.
  destruct (user (state w)), (profile (state w)); auto;
    destruct H; discriminate.
Qed.

(** A run only adds to the trace: [emitted] is all of what it added. *)
Lemma onSubmit_trace_extends (w : World State) (data : ProfileForm) :
  trace (snd (onSubmit env data w)) = trace w ++ emitted w (snd (onSubmit env data w)).
Proof.
  destruct (user (state w)) as [u|] eqn:Hu.
  - destruct (profile (state w)) as [p|] eqn:Hp.
    + apply (onSubmit_outcome w u p data Hu Hp).
    + rewrite (onSubmit_guard w data) by auto. simpl.
      now rewrite emitted_refl, app_nil_r.
  - rewrite (onSubmit_guard w data) by auto. simpl.
    now rewrite emitted_refl, app_nil_r.
Qed.

(** Whatever the store answers, the rows inserted are among the rows
    of the differing fields. *)
Lemma onSubmit_inserts_incl (w : World State) (u : User.t) (p : Profile.t)
      (data : ProfileForm) :
  user (state w) = Some u -> profile (state w) = Some p ->
  incl (change_inserts (emitted w (snd (onSubmit env data w)))) (audit_rows u p data).
Proof.
  intros Hu Hp. destruct (onSubmit_outcome w u p data Hu Hp) as (_ & _ & O).
  inversion O as [pre more A R N | pre A R F | pre post st A R F L];
    rewrite !change_inserts_app; simpl.
  - rewrite app_nil_r, R. apply incl_appl, incl_refl.
  - rewrite app_nil_r, R. apply incl_refl.
  - destruct (reload_events_no_write post L) as [-> _].
    rewrite app_nil_r, R. apply incl_refl.
Qed.

(** When no insert is rejected, the rows inserted are exactly the rows of
    the differing fields, all of them before the one update. *)
Lemma onSubmit_answered_inserts (w : World State) (u : User.t) (p : Profile.t)
      (data : ProfileForm) :
  user (state w) = Some u -> profile (state w) = Some p ->
  inserts_answered env ->
  change_inserts (emitted w (snd (onSubmit env data w))) = audit_rows u p data
  /\ change_inserts (before_update (emitted w (snd (onSubmit env data w))))
     = change_inserts (emitted w (snd (onSubmit env data w)))
  /\ length (profile_updates (emitted w (snd (onSubmit env data w)))) = 1.
Proof.
  intros Hu Hp Ha.
  destruct (onSubmit_outcome w u p data Hu Hp) as (_ & _ & O).
  set (evs := emitted w (snd (onSubmit env data w))) in *. clearbody evs.
  set (st := state (snd (onSubmit env data w))) in O. clearbody st.
  destruct O as [pre more A R N | pre A R F | pre post st A R F L].
  - contradiction.
  - unfold update_call.
    rewrite before_update_audit, change_inserts_app, profile_updates_app by assumption.
    rewrite (audit_events_no_update pre A). simpl. rewrite app_nil_r. auto.
  - unfold update_call, success_toast.
    rewrite before_update_audit, change_inserts_app, profile_updates_app by assumption.
    rewrite (audit_events_no_update pre A). simpl.
    destruct (reload_events_no_write post L) as [-> ->].
    rewrite app_nil_r. auto.
Qed.

Lemma or_null_not_empty (a : Js.OptString) : Js.or_null a <> Some "".
Proof.
  destruct a as [| |s]; simpl; try discriminate.
  destruct (String.eqb s "") eqn:E; try discriminate.
  intros H. inversion H. subst. discriminate.
Qed.

End Run.

End ProfileRun.

(* ------------------------------------------------------------------ *)
(** ** The profile-mutation cycle *)

Module ProfileAudit.
Import ProfilePage AuditSpec Scenario ProfileRun.

(** C1.  The code at a submission the claim speaks of.  The loaded snapshot
    has no phone number and the form's phone field is the empty string, as
    [loadProfile] left it.  Submitted untouched, no field differs (K = 0) and
    yet one row is inserted; submitted with another first name, one field
    differs (K = 1) and two rows are inserted, the second a [phone_number]
    row with old value null and new value null. *)
Theorem onSubmit_counts_unchanged_phone_as_change :
  let env := store_ok Js.Null in
  let w := snd (loadProfile env fresh) in
  let untouched := submit "Ann" "Lee" (Some "") in
  let renamed := submit "Anna" "Lee" (Some "") in
  profile (state w) = Some (ann Js.Null)
  /\ form (state w) = Some untouched
  /\ (spec_changed_count (ann Js.Null) untouched = 0
      /\ change_inserts (emitted w (snd (onSubmit env untouched w)))
         = [change_row U1 "phone_number" None None])
  /\ (profileSchema renamed = true
      /\ spec_changed_count (ann Js.Null) renamed = 1
      /\ change_inserts (emitted w (snd (onSubmit env renamed w)))
         = [change_row U1 "first_name" (Some "Ann") (Some "Anna");
            change_row U1 "phone_number" None None]).
Proof. vm_compute. auto 10. Qed.

(** C2.  The code at the inputs the claim speaks of.  A profile whose
    phone number is absent is loaded; [loadProfile] resets the form's phone
    field to the empty string; submitting that form untouched, which the
    schema accepts, inserts a [phone_number] row with old value null and new
    value null.  The same row is inserted when the snapshot holds the empty
    string and the submitted phone number is absent. *)
Theorem onSubmit_records_empty_versus_absent_phone :
  let env := store_ok Js.Null in
  let w := snd (loadProfile env fresh) in
  let data := submit "Ann" "Lee" (Some "") in
  (profile (state w) = Some (ann Js.Null) /\ form (state w) = Some data /\
   profileSchema data = true /\
   change_inserts (emitted w (snd (onSubmit env data w))) =
     [change_row U1 "phone_number" None None])
  /\
  change_inserts
    (emitted (loaded (ann (Js.Str "")))
       (snd (onSubmit (store_ok (Js.Str "")) (submit "Ann" "Lee" None)
               (loaded (ann (Js.Str ""))))))
  = [change_row U1 "phone_number" None None].
Proof. vm_compute. auto. Qed.

(** The same for every user whose snapshot has no phone number and whose
    form is submitted as [loadProfile] filled it: one [phone_number] row
    null -> null is inserted. *)
Lemma onSubmit_untouched_form_of_absent_phone
      (env : Env) (w : World State) (u : User.t) (p : Profile.t) (data : ProfileForm) :
  user (state w) = Some u -> profile (state w) = Some p ->
  inserts_answered env ->
  Profile.phone_number p = Js.Null ->
  firstName data = Profile.first_name p ->
  lastName data = Profile.last_name p ->
  phoneNumber data = Some (Js.or_empty (Profile.phone_number p)) ->
  change_inserts (emitted w (snd (onSubmit env data w)))
  = [change_row u "phone_number" None None].
Proof.
  intros Hu Hp Ha Hn H1 H2 H3.
  destruct (onSubmit_answered_inserts env w u p data Hu Hp Ha) as (G & _ & _).
  rewrite G. unfold audit_rows, firstName_differs, lastName_differs, phoneNumber_differs.
  rewrite H1, H2, H3, Hn, !String.eqb_refl. reflexivity.
Qed.

(** C6.  When the store fails the [profiles] update that [onSubmit] issued
    (an error answer or a rejection), whatever audit rows were written
    before it, the component state is left as it was, no success toast is
    shown and neither the profile nor the change history is reloaded. *)
Theorem onSubmit_failed_update_aborts
        (env : Env) (w : World State) (data : ProfileForm)
        (payload : ProfileUpdate.t) (i : string) :
  let w' := snd (onSubmit env data w) in
  let evs := emitted w w' in
  profile_updates evs = [(payload, i)] ->
  update_failed (update_profiles env (trace w ++ before_update evs) payload i) ->
  state w' = state w
  /\ existsb is_toast_success evs = false
  /\ existsb is_reload evs = false.
Proof.
  intros w' evs HU HF.
  destruct (user (state w)) as [u|] eqn:Hu.
  2:{ subst evs w'. rewrite (onSubmit_guard env w data) in * by auto. simpl in *.
      rewrite emitted_refl in HU. discriminate. }
  destruct (profile (state w)) as [p|] eqn:Hp.
  2:{ subst evs w'. rewrite (onSubmit_guard env w data) in * by auto. simpl in *.
      rewrite emitted_refl in HU. discriminate. }
  destruct (onSubmit_outcome env w u p data Hu Hp) as (_ & _ & O).
  fold w' in O. fold evs in O. clearbody evs.
  set (st := state w') in *. clearbody st.
  destruct O as [pre more A R N | pre A R F | pre post st A R F L].
  - rewrite profile_updates_app, (audit_events_no_update pre A) in HU. discriminate.
  - destruct (audit_events_quiet pre A) as [Q1 Q2].
    rewrite !existsb_app, Q1, Q2. auto.
  - exfalso. unfold update_call in *.
    rewrite before_update_audit in HF by assumption.
    rewrite profile_updates_app, (audit_events_no_update pre A) in HU. simpl in HU.
    destruct (reload_events_no_write post L) as [_ E]. rewrite E in HU.
    inversion HU; subst. contradiction.
Qed.

Lemma onSubmit_failed_update_aborts_witness :
  let env := constant_env ok ok refused (ann (Js.Str "555")) sign_in_ok in
  let w := loaded (ann (Js.Str "555")) in
  let data := submit "Anna" "Leigh" (Some "555") in
  let w' := snd (onSubmit env data w) in
  length (change_inserts (emitted w w')) = 2
  /\ state w' = state w
  /\ existsb is_toast_success (emitted w w') = false
  /\ existsb is_reload (emitted w w') = false.
Proof.
  intros env w data w'. split; [reflexivity|].
  apply (onSubmit_failed_update_aborts env w data
           (update_payload data "2025-02-01T09:00:00.000Z") "U1").
  - reflexivity.
  - exact I.
Defined.

(** C7.  The code at a submission in which no field differs from the loaded
    snapshot.  The snapshot has no phone number, the form is submitted as
    [loadProfile] filled it, the schema accepts it, and K = 0; the one update
    with the clock's reading is issued, but a [phone_number] row is inserted
    before it. *)
Theorem onSubmit_unchanged_form_of_absent_phone_inserts_row :
  let env := store_ok Js.Null in
  let w := snd (loadProfile env fresh) in
  let data := submit "Ann" "Lee" (Some "") in
  let evs := emitted w (snd (onSubmit env data w)) in
  form (state w) = Some data
  /\ profileSchema data = true
  /\ spec_changed_count (ann Js.Null) data = 0
  /\ profile_updates evs = [(update_payload data "2025-02-01T09:00:00.000Z", "U1")]
  /\ change_inserts evs = [change_row U1 "phone_number" None None]
  /\ change_inserts (before_update evs) = change_inserts evs.
Proof. vm_compute. auto 10. Qed.

(** C8.  Every row [onSubmit] inserts into [profile_changes] has
    [changed_by] equal to [user_id]. *)
Theorem onSubmit_changed_by_is_user_id
        (env : Env) (w : World State) (data : ProfileForm) (row : ChangeInsert.t) :
  In row (change_inserts (emitted w (snd (onSubmit env data w)))) ->
  ChangeInsert.changed_by row = ChangeInsert.user_id row.
Proof.
  intros Hin.
  destruct (user (state w)) as [u|] eqn:Hu.
  2:{ rewrite (onSubmit_guard env w data) in Hin by auto. simpl in Hin.
      rewrite emitted_refl in Hin. contradiction. }
  destruct (profile (state w)) as [p|] eqn:Hp.
  2:{ rewrite (onSubmit_guard env w data) in Hin by auto. simpl in Hin.
      rewrite emitted_refl in Hin. contradiction. }
  apply (onSubmit_inserts_incl env w u p data Hu Hp) in Hin.
  unfold audit_rows in Hin.
  destruct (firstName_differs p data), (lastName_differs p data),
    (phoneNumber_differs p data); simpl in Hin;
    repeat (destruct Hin as [<- | Hin]; [reflexivity|]); contradiction.
Qed.

Lemma onSubmit_changed_by_is_user_id_witness :
  ChangeInsert.changed_by (change_row U1 "last_name" (Some "Lee") (Some "Leigh")) = "U1".
Proof.
  apply (onSubmit_changed_by_is_user_id (store_ok Js.Null) (loaded (ann (Js.Str "555")))
           (submit "Ann" "Leigh" (Some "555"))).
  left. reflexivity.
Defined.

(** C9.  Without an authenticated user, or before a snapshot is loaded,
    [onSubmit] issues no store write (indeed no effect at all) and leaves
    the component state as it was. *)
Theorem onSubmit_without_user_or_snapshot
        (env : Env) (w : World State) (data : ProfileForm) :
  user (state w) = None \/ profile (state w) = None ->
  let w' := snd (onSubmit env data w) in
  state w' = state w
  /\ trace w' = trace w
  /\ filter is_store_write (emitted w w') = [].
Proof.
  intros H w'. subst w'. rewrite (onSubmit_guard env w data H). simpl.
  rewrite emitted_refl. auto.
Qed.

Lemma onSubmit_without_user_or_snapshot_witness :
  let w' := snd (onSubmit (store_ok Js.Null) (submit "Anna" "Lee" None) fresh) in
  state w' = state fresh /\ trace w' = [] /\ filter is_store_write (emitted fresh w') = [].
Proof.
  apply (onSubmit_without_user_or_snapshot (store_ok Js.Null) fresh
           (submit "Anna" "Lee" None)).
  right. reflexivity.
Defined.

(** C10.  Every row [onSubmit] inserts into [profile_changes] is of one of
    three kinds: a [phone_number] row whose old and new value are the
    snapshot's and the submitted phone number with the empty string (and an
    absent value) turned into null, so that neither is the empty string; a
    [first_name] row carrying the snapshot's and the submitted first name as
    they are; a [last_name] row carrying the two last names as they are. *)
Theorem onSubmit_phone_values_normalized
        (env : Env) (w : World State) (u : User.t) (p : Profile.t)
        (data : ProfileForm) (row : ChangeInsert.t) :
  user (state w) = Some u -> profile (state w) = Some p ->
  In row (change_inserts (emitted w (snd (onSubmit env data w)))) ->
  (ChangeInsert.field_changed row = "phone_number"
   /\ ChangeInsert.old_value row = Js.or_null (Profile.phone_number p)
   /\ ChangeInsert.new_value row = Js.or_null (Js.of_optional (phoneNumber data))
   /\ ChangeInsert.old_value row <> Some ""
   /\ ChangeInsert.new_value row <> Some "")
  \/ (ChangeInsert.field_changed row = "first_name"
      /\ ChangeInsert.old_value row = Some (Profile.first_name p)
      /\ ChangeInsert.new_value row = Some (firstName data))
  \/ (ChangeInsert.field_changed row = "last_name"
      /\ ChangeInsert.old_value row = Some (Profile.last_name p)
      /\ ChangeInsert.new_value row = Some (lastName data)).
Proof.
  intros Hu Hp Hin.
  apply (onSubmit_inserts_incl env w u p data Hu Hp) in Hin.
  unfold audit_rows in Hin.
  assert (P : forall a b, change_row u "phone_number" (Js.or_null a) (Js.or_null b) = row ->
                          ChangeInsert.old_value row <> Some ""
                          /\ ChangeInsert.new_value row <> Some "").
  { intros a b <-. simpl. split; apply or_null_not_empty. }
  destruct (firstName_differs p data), (lastName_differs p data),
    (phoneNumber_differs p data); simpl in Hin;
    repeat match goal with
           | H : _ \/ _ |- _ => destruct H as [H | H]
           | H : False |- _ => contradiction
           end;
    try (destruct (P _ _ Hin) as [P1 P2]; left; subst row; simpl in *; auto; fail);
    subst row; simpl; auto.
Qed.

Lemma onSubmit_phone_values_normalized_witness :
  let row := change_row U1 "phone_number" None (Some "555") in
  (ChangeInsert.field_changed row = "phone_number"
   /\ ChangeInsert.old_value row = Js.or_null (Js.Str "")
   /\ ChangeInsert.new_value row = Js.or_null (Js.Str "555")
   /\ ChangeInsert.old_value row <> Some ""
   /\ ChangeInsert.new_value row <> Some "")
  \/ (ChangeInsert.field_changed row = "first_name"
      /\ ChangeInsert.old_value row = Some "Ann"
      /\ ChangeInsert.new_value row = Some "Ann")
  \/ (ChangeInsert.field_changed row = "last_name"
      /\ ChangeInsert.old_value row = Some "Lee"
      /\ ChangeInsert.new_value row = Some "Lee").
Proof.
  intros row.
  apply (onSubmit_phone_values_normalized (store_ok (Js.Str "555"))
           (loaded (ann (Js.Str ""))) U1 (ann (Js.Str ""))
           (submit "Ann" "Lee" (Some "555")) row).
  - reflexivity.
  - reflexivity.
  - left. reflexivity.
Defined.

End ProfileAudit.

(* ------------------------------------------------------------------ *)
(** ** The sign-in handler *)

Module LoginAudit.
Import LoginPage LoginSpec Scenario.

(** [recordLoginAttempt] issues one insert and always ends normally: an
    error answer is not looked at, a rejection is caught and logged. *)
Lemma recordLoginAttempt_run (env : Env) (userId : string) (success : bool)
      (failureReason : option string) (w : World State) :
  exists logs,
    insert_logs logs /\
    recordLoginAttempt env userId success failureReason w =
    (Normal tt,
     {| state := state w;
        trace := trace w ++
                 InsertLoginHistory (login_row env userId success failureReason) :: logs |}).
Proof.
  unfold recordLoginAttempt, try_catch, bind, await, emit, ret, login_row.
  destruct (insert_login_history env (trace w) _) as [r|e]; simpl.
  - exists []. split; [left; reflexivity | reflexivity].
  - exists [record_failure_log e]. split; [right; eauto|].
    rewrite <- app_assoc. reflexivity.
Qed.

Lemma insert_logs_no_insert (logs : list Event) :
  insert_logs logs -> login_inserts logs = [] /\ existsb is_navigate logs = false.
Proof. intros [-> | [e ->]]; auto. Qed.

(** C4.  When the identity provider answers a sign-in with an error,
    exactly one row is inserted into [login_history], with [success] false,
    [user_id] the submitted email and [failure_reason] the provider's
    message; whatever the store answers to that insert, the [try] block then
    throws the provider's error, after the insert; [onSubmit] catches it,
    shows the failure toast and does not navigate. *)
Theorem onSubmit_rejected_sign_in
        (env : Env) (w : World State) (data : LoginForm)
        (r : AuthResponse) (error : Js.Error) :
  signInWithPassword env (trace w) (email data) (password data) = Js.Resolved r ->
  auth_error r = Some error ->
  let row := login_row env (email data) false (Some (Js.message error)) in
  let attempt := [SignInWithPassword (email data) (password data);
                  InsertLoginHistory row] in
  exists logs,
    insert_logs logs
    /\ onSubmit_try env data w =
       (Throw error, {| state := state w; trace := trace w ++ attempt ++ logs |})
    /\ onSubmit env data w =
       (Normal tt,
        {| state := state w; trace := trace w ++ attempt ++ logs ++ [sign_in_toast] |})
    /\ login_inserts (emitted w (snd (onSubmit env data w))) = [row]
    /\ existsb is_navigate (emitted w (snd (onSubmit env data w))) = false.
Proof.
  intros Hs He row attempt.
  assert (T : exists logs,
             insert_logs logs /\
             onSubmit_try env data w =
             (Throw error, {| state := state w; trace := trace w ++ attempt ++ logs |})).
  { unfold onSubmit_try, bind, await. rewrite Hs, He.
    set (w1 := {| state := state w; trace := _ |}).
    destruct (recordLoginAttempt_run env (email data) false
                (Some (Js.message error)) w1) as (logs & L & E).
    rewrite E. exists logs. split; auto. unfold throw. subst w1 attempt row. simpl.
    rewrite <- app_assoc. reflexivity. }
  destruct T as (logs & L & E). exists logs.
  assert (O : onSubmit env data w =
              (Normal tt,
               {| state := state w;
                  trace := trace w ++ attempt ++ logs ++ [sign_in_toast] |})).
  { unfold onSubmit, try_catch. rewrite E. unfold emit. simpl.
    rewrite <- !app_assoc. reflexivity. }
  split; [exact L|]. split; [exact E|]. split; [exact O|].
  rewrite O. simpl snd.
  rewrite (emitted_app w _ (attempt ++ logs ++ [sign_in_toast])) by reflexivity.
  destruct (insert_logs_no_insert logs L) as [L1 L2].
  subst attempt. simpl. rewrite login_inserts_app, existsb_app, L1, L2. auto.
Qed.

Lemma onSubmit_rejected_sign_in_witness :
  let env := constant_env ok unreachable ok (ann Js.Null) sign_in_rejected in
  let row := login_row env "a@b.com" false (Some "Invalid login credentials") in
  let attempt := [SignInWithPassword "a@b.com" "correct horse"; InsertLoginHistory row] in
  exists logs,
    insert_logs logs
    /\ onSubmit_try env credentials login_page =
       (Throw invalid_credentials, {| state := tt; trace := [] ++ attempt ++ logs |})
    /\ onSubmit env credentials login_page =
       (Normal tt, {| state := tt; trace := [] ++ attempt ++ logs ++ [sign_in_toast] |})
    /\ login_inserts (emitted login_page (snd (onSubmit env credentials login_page))) = [row]
    /\ existsb is_navigate (emitted login_page (snd (onSubmit env credentials login_page)))
       = false.
Proof.
  intros env.
  apply (onSubmit_rejected_sign_in env login_page credentials
           {| auth_user := None; auth_error := Some invalid_credentials |}
           invalid_credentials).
  - reflexivity.
  - reflexivity.
Defined.

(** C5.  When the identity provider accepts a sign-in and resolves it to a
    user, exactly one row is inserted into [login_history], with [success]
    true and [user_id] the resolved user's id, and the one navigation of the
    run comes after that insert attempt has completed, whatever the store
    answered to it. *)
Theorem onSubmit_accepted_sign_in
        (env : Env) (w : World State) (data : LoginForm)
        (r : AuthResponse) (authUser : User.t) :
  signInWithPassword env (trace w) (email data) (password data) = Js.Resolved r ->
  auth_error r = None ->
  auth_user r = Some authUser ->
  let row := login_row env (User.id authUser) true None in
  let attempt := [SignInWithPassword (email data) (password data);
                  InsertLoginHistory row] in
  exists logs,
    insert_logs logs
    /\ onSubmit env data w =
       (Normal tt,
        {| state := state w; trace := trace w ++ attempt ++ logs ++ [Navigate "/"] |})
    /\ login_inserts (emitted w (snd (onSubmit env data w))) = [row].
Proof.
  intros Hs He Hu row attempt.
  unfold onSubmit, try_catch, onSubmit_try, bind, await. rewrite Hs, He, Hu.
  set (w1 := {| state := state w; trace := _ |}).
  destruct (recordLoginAttempt_run env (User.id authUser) true None w1)
    as (logs & L & E).
  rewrite E. exists logs. split; [exact L|].
  assert (O : trace w1 ++ InsertLoginHistory row :: logs ++ [Navigate "/"]
              = trace w ++ attempt ++ logs ++ [Navigate "/"]).
  { subst w1 attempt. simpl. rewrite <- app_assoc. reflexivity. }
  unfold emit. simpl. fold row. rewrite <- app_assoc. simpl.
  change (trace w ++ [SignInWithPassword (email data) (password data)]) with (trace w1).
  rewrite O. split; [reflexivity|].
  rewrite (emitted_app w _ (attempt ++ logs ++ [Navigate "/"])) by reflexivity.
  destruct (insert_logs_no_insert logs L) as [L1 _].
  subst attempt. simpl. rewrite login_inserts_app, L1. reflexivity.
Qed.

Lemma onSubmit_accepted_sign_in_witness :
  let env := constant_env ok refused ok (ann Js.Null) sign_in_ok in
  let row := login_row env "U1" true None in
  let attempt := [SignInWithPassword "a@b.com" "correct horse"; InsertLoginHistory row] in
  exists logs,
    insert_logs logs
    /\ onSubmit env credentials login_page =
       (Normal tt, {| state := tt; trace := [] ++ attempt ++ logs ++ [Navigate "/"] |})
    /\ login_inserts (emitted login_page (snd (onSubmit env credentials login_page))) = [row].
Proof.
  intros env.
  apply (onSubmit_accepted_sign_in env login_page credentials
           {| auth_user := Some U1; auth_error := None |} U1); reflexivity.
Defined.

End LoginAudit.


(* ------------------------------------------------------------------ *)
(** ** Frame rules of the monad *)

Module FrameFacts.
Import Frame.

Section Rules.
Context {St : Type}.
Variable R : St -> St -> Prop.
Variable Q : Event -> bool.
Hypothesis R_refl : forall s, R s s.
Hypothesis R_trans : forall a b c, R a b -> R b c -> R a c.

Lemma keeps_ret {A} (a : A) : keeps R Q (ret a).
Proof.
  intros w. simpl. split; [apply R_refl|].
  exists []. now rewrite app_nil_r.
Qed.

Lemma keeps_throw {A} (e : Js.Error) : keeps R Q (@throw St A e).
Proof.
  intros w. simpl. split; [apply R_refl|].
  exists []. now rewrite app_nil_r.
Qed.

Lemma keeps_get : keeps R Q (@get St).
Proof.
  intros w. simpl. split; [apply R_refl|].
  exists []. now rewrite app_nil_r.
Qed.

Lemma keeps_ask {A} (f : list Event -> A) : keeps R Q (@ask St A f).
Proof.
  intros w. simpl. split; [apply R_refl|].
  exists []. now rewrite app_nil_r.
Qed.

Lemma keeps_emit (e : Event) : Q e = true -> keeps R Q (@emit St e).
Proof.
  intros He w. simpl. split; [apply R_refl|].
  exists [e]. simpl. now rewrite He.
Qed.

Lemma keeps_modify (f : St -> St) : (forall s, R s (f s)) -> keeps R Q (modify f).
Proof.
  intros Hf w. simpl. split; [apply Hf|].
  exists []. now rewrite app_nil_r.
Qed.

Lemma keeps_await {A} (call : Event) (answer : list Event -> Js.Awaited A) :
  Q call = true -> keeps R Q (@await St A call answer).
Proof.
  intros He w. unfold await.
  destruct (answer (trace w)); simpl; (split; [apply R_refl|]);
    exists [call]; simpl; now rewrite He.
Qed.

Lemma keeps_bind {A B} (m : M St A) (k : A -> M St B) :
  keeps R Q m -> (forall a, keeps R Q (k a)) -> keeps R Q (bind m k).
Proof.
  intros Hm Hk w. unfold bind.
  destruct (Hm w) as [R1 (evs1 & T1 & Q1)].
  destruct (m w) as [[a|e] w1]; simpl in *.
  - destruct (Hk a w1) as [R2 (evs2 & T2 & Q2)].
    split; [eapply R_trans; eauto|].
    exists (evs1 ++ evs2). rewrite T2, T1, app_assoc. split; auto.
    rewrite forallb_app, Q1, Q2. reflexivity.
  - split; auto. exists evs1. auto.
Qed.

Lemma keeps_try_catch {A} (body : M St A) (handler : Js.Error -> M St A) :
  keeps R Q body -> (forall e, keeps R Q (handler e)) -> keeps R Q (try_catch body handler).
Proof.
  intros Hm Hk w. unfold try_catch.
  destruct (Hm w) as [R1 (evs1 & T1 & Q1)].
  destruct (body w) as [[a|e] w1]; simpl in *.
  - split; auto. exists evs1. auto.
  - destruct (Hk e w1) as [R2 (evs2 & T2 & Q2)].
    split; [eapply R_trans; eauto|].
    exists (evs1 ++ evs2). rewrite T2, T1, app_assoc. split; auto.
    rewrite forallb_app, Q1, Q2. reflexivity.
Qed.

Lemma keeps_when (b : bool) (m : M St unit) :
  keeps R Q m -> keeps R Q (when b m).
Proof. intros Hm. destruct b; simpl; auto using keeps_ret. Qed.

(** What [keeps] says about the events a run emitted. *)
Lemma keeps_emitted {A} (m : M St A) (w : World St) :
  keeps R Q m ->
  R (state w) (state (snd (m w))) /\ forallb Q (emitted w (snd (m w))) = true.
Proof.
  intros Hm. destruct (Hm w) as [R1 (evs & T & Hq)].
  split; auto. now rewrite (emitted_app w _ evs T).
Qed.

End Rules.

(** Applies the frame rules along the structure of a handler; [rf] and [tr]
    are the reflexivity and transitivity of the state relation. *)
Ltac frame_step rf tr :=
  match goal with
  | |- keeps _ _ (bind _ _) => apply (keeps_bind _ _ tr); [|intros ?]
  | |- keeps _ _ (try_catch _ _) => apply (keeps_try_catch _ _ tr); [|intros ?]
  | |- keeps _ _ (when _ _) => apply (keeps_when _ _ rf)
  | |- keeps _ _ (ret _) => apply (keeps_ret _ _ rf)
  | |- keeps _ _ (throw _) => apply (keeps_throw _ _ rf)
  | |- keeps _ _ get => apply (keeps_get _ _ rf)
  | |- keeps _ _ (ask _) => apply (keeps_ask _ _ rf)
  | |- keeps _ _ (emit _) => apply (keeps_emit _ _ rf); reflexivity
  | |- keeps _ _ (await _ _) => apply (keeps_await _ _ rf); reflexivity
  | |- keeps _ _ (modify _) => apply keeps_modify
  | |- keeps _ _ (match ?x with _ => _ end) => destruct x
  end.

End FrameFacts.

(* ------------------------------------------------------------------ *)
(** ** More on the profile page: loaders, reload and failure paths *)

Module ProfileCycle.
Import ProfilePage AuditSpec Scenario ProfileRun Frame FrameFacts.

Lemma same_session_refl (s : State) : same_session s s.
Proof. split; reflexivity. Qed.

Lemma same_session_trans (a b c : State) :
  same_session a b -> same_session b c -> same_session a c.
Proof. intros [A1 A2] [B1 B2]. split; congruence. Qed.

Lemma only_snapshot_and_form_refl (s : State) : only_snapshot_and_form s s.
Proof. repeat split. Qed.

Lemma only_snapshot_and_form_trans (a b c : State) :
  only_snapshot_and_form a b -> only_snapshot_and_form b c -> only_snapshot_and_form a c.
Proof. intros (A1 & A2 & A3) (B1 & B2 & B3). repeat split; congruence. Qed.

Lemma only_changes_refl (s : State) : only_changes s s.
Proof. repeat split. Qed.

Lemma only_changes_trans (a b c : State) :
  only_changes a b -> only_changes b c -> only_changes a c.
Proof. intros (A1 & A2 & A3 & A4) (B1 & B2 & B3 & B4). repeat split; congruence. Qed.

Lemma only_loginHistory_refl (s : State) : only_loginHistory s s.
Proof. repeat split. Qed.

Lemma only_loginHistory_trans (a b c : State) :
  only_loginHistory a b -> only_loginHistory b c -> only_loginHistory a c.
Proof. intros (A1 & A2 & A3 & A4) (B1 & B2 & B3 & B4). repeat split; congruence. Qed.

Section Cycle.
Variable env : Env.

Lemma onSubmit_keeps_session (data : ProfileForm) :
  keeps same_session is_profile_submit_event (onSubmit env data).
Proof.
  unfold onSubmit, onSubmit_try, recordProfileChange, loadProfile, loadProfileChanges.
  repeat frame_step same_session_refl same_session_trans;
    intros s; split; reflexivity.
Qed.

Lemma loadProfile_keeps :
  keeps only_snapshot_and_form is_read_event (loadProfile env).
Proof.
  unfold loadProfile.
  repeat frame_step only_snapshot_and_form_refl only_snapshot_and_form_trans;
    intros s; repeat split.
Qed.

Lemma loadProfileChanges_keeps :
  keeps only_changes is_read_event (loadProfileChanges env).
Proof.
  unfold loadProfileChanges.
  repeat frame_step only_changes_refl only_changes_trans;
    intros s; repeat split.
Qed.

Lemma loadLoginHistory_keeps :
  keeps only_loginHistory is_read_event (loadLoginHistory env).
Proof.
  unfold loadLoginHistory.
  repeat frame_step only_loginHistory_refl only_loginHistory_trans;
    intros s; repeat split.
Qed.

End Cycle.

(** X1.  [onSubmit] of the profile page never lets an exception escape:
    whatever the store answers or rejects, it ends normally. *)
Theorem profile_onSubmit_never_throws (env : Env) (w : World State) (data : ProfileForm) :
  fst (onSubmit env data w) = Normal tt.
Proof.
  destruct (user (state w)) as [u|] eqn:Hu.
  - destruct (profile (state w)) as [p|] eqn:Hp.
    + apply (onSubmit_outcome env w u p data Hu Hp).
    + now rewrite (onSubmit_guard env w data) by auto.
  - now rewrite (onSubmit_guard env w data) by auto.
Qed.

(** X2.  [onSubmit] of the profile page leaves the user and the login
    history of the component state as they were, and issues no sign-in call,
    no [login_history] insert or select, and no navigation. *)
Theorem profile_onSubmit_leaves_session_alone
        (env : Env) (w : World State) (data : ProfileForm) :
  let w' := snd (onSubmit env data w) in
  user (state w') = user (state w)
  /\ loginHistory (state w') = loginHistory (state w)
  /\ forallb is_profile_submit_event (emitted w w') = true.
Proof.
  intros w'.
  destruct (keeps_emitted _ _ (onSubmit env data) w (onSubmit_keeps_session env data))
    as [[H1 H2] H3].
  auto.
Qed.

(** X3.  The three loaders change only their own cells of the component
    state ([loadProfile] the snapshot and the form, [loadProfileChanges] the
    change list, [loadLoginHistory] the login list) and emit nothing but a
    select and the failure toast: they never write to the store. *)
Theorem loaders_touch_only_their_cells (env : Env) (w : World State) :
  (only_snapshot_and_form (state w) (state (snd (loadProfile env w)))
   /\ forallb is_read_event (emitted w (snd (loadProfile env w))) = true)
  /\ (only_changes (state w) (state (snd (loadProfileChanges env w)))
      /\ forallb is_read_event (emitted w (snd (loadProfileChanges env w))) = true)
  /\ (only_loginHistory (state w) (state (snd (loadLoginHistory env w)))
      /\ forallb is_read_event (emitted w (snd (loadLoginHistory env w))) = true).
Proof.
  split; [|split].
  - apply (keeps_emitted _ _ (loadProfile env) w (loadProfile_keeps env)).
  - apply (keeps_emitted _ _ (loadProfileChanges env) w (loadProfileChanges_keeps env)).
  - apply (keeps_emitted _ _ (loadLoginHistory env) w (loadLoginHistory_keeps env)).
Qed.

End ProfileCycle.

(* ------------------------------------------------------------------ *)
(** ** The commit and the reload, answer by answer *)

Module ProfileReload.
Import ProfilePage AuditSpec Scenario ProfileRun Frame.

Section Reload.
Variable env : Env.

(** [loadProfile] for a present user, by the store's answer. *)
Lemma loadProfile_cases (w : World State) (u : User.t) :
  user (state w) = Some u ->
  loadProfile env w =
  match select_profiles_single env (trace w) (User.id u) with
  | Js.Resolved (PgData row) =>
      (Normal tt,
       {| state := reset (form_of row) (setProfile row (state w));
          trace := trace w ++ [SelectProfile (User.id u)] |})
  | Js.Resolved (PgError _) =>
      (Normal tt,
       {| state := state w;
          trace := trace w ++ [SelectProfile (User.id u);
                               ToastError "Failed to load profile"] |})
  | Js.Rejected e =>
      (Throw e, {| state := state w; trace := trace w ++ [SelectProfile (User.id u)] |})
  end.
Proof.
  intros Hu. unfold loadProfile, bind, get, await, emit, modify, form_of. rewrite Hu.
  destruct (select_profiles_single env (trace w) (User.id u)) as [[row|e]|e]; simpl; auto.
  now rewrite <- app_assoc.
Qed.

Lemma loadProfileChanges_cases (w : World State) (u : User.t) :
  user (state w) = Some u ->
  loadProfileChanges env w =
  match select_profile_changes env (trace w) (User.id u) with
  | Js.Resolved (PgData cs) =>
      (Normal tt,
       {| state := setChanges cs (state w);
          trace := trace w ++ [SelectProfileChanges (User.id u)] |})
  | Js.Resolved (PgError _) =>
      (Normal tt,
       {| state := state w;
          trace := trace w ++ [SelectProfileChanges (User.id u);
                               ToastError "Failed to load profile changes"] |})
  | Js.Rejected e =>
      (Throw e,
       {| state := state w; trace := trace w ++ [SelectProfileChanges (User.id u)] |})
  end.
Proof.
  intros Hu. unfold loadProfileChanges, bind, get, await, emit, modify. rewrite Hu.
  destruct (select_profile_changes env (trace w) (User.id u)) as [[cs|e]|e]; simpl; auto.
  now rewrite <- app_assoc.
Qed.

Lemma loadLoginHistory_cases (w : World State) (u : User.t) :
  user (state w) = Some u ->
  loadLoginHistory env w =
  match select_login_history env (trace w) (User.id u) with
  | Js.Resolved (PgData hs) =>
      (Normal tt,
       {| state := setLoginHistory hs (state w);
          trace := trace w ++ [SelectLoginHistory (User.id u)] |})
  | Js.Resolved (PgError _) =>
      (Normal tt,
       {| state := state w;
          trace := trace w ++ [SelectLoginHistory (User.id u);
                               ToastError "Failed to load login history"] |})
  | Js.Rejected e =>
      (Throw e,
       {| state := state w; trace := trace w ++ [SelectLoginHistory (User.id u)] |})
  end.
Proof.
  intros Hu. unfold loadLoginHistory, bind, get, await, emit, modify. rewrite Hu.
  destruct (select_login_history env (trace w) (User.id u)) as [[hs|e]|e]; simpl; auto.
  now rewrite <- app_assoc.
Qed.

(** After an accepted update the [try] block goes on with the success
    toast and the two reloads. *)
Lemma commit_phase_accepted (u : User.t) (data : ProfileForm) (w : World State)
      (d : unit) :
  update_profiles env (trace w)
    (update_payload data (Date_toISOString env (trace w))) (User.id u)
  = Js.Resolved (PgData d) ->
  commit_phase env u data w =
  (loadProfile env ;; loadProfileChanges env)
    {| state := state w;
       trace := trace w ++ [update_call env u data (trace w); success_toast] |}.
Proof.
  intros Hup. unfold commit_phase, update_call, success_toast, bind, ask, await, emit.
  simpl. rewrite Hup. simpl. rewrite <- app_assoc. reflexivity.
Qed.

(** The whole handler as the audit steps followed by the commit. *)
Lemma onSubmit_phases (w : World State) (u : User.t) (p : Profile.t) (data : ProfileForm) :
  user (state w) = Some u -> profile (state w) = Some p ->
  onSubmit env data w =
  try_catch (audit_phase env p data ;; commit_phase env u data)
            (fun _ => emit failure_toast) w.
Proof.
  intros Hu Hp. unfold onSubmit, bind at 1, get. rewrite Hu, Hp.
  unfold try_catch. rewrite onSubmit_try_phases. reflexivity.
Qed.

(** With every insert answered, the audit steps end normally. *)
Lemma audit_phase_answered (u : User.t) (p : Profile.t) (data : ProfileForm)
      (w : World State) :
  user (state w) = Some u -> inserts_answered env ->
  exists pre,
    audit_phase env p data w = (Normal tt, {| state := state w; trace := trace w ++ pre |})
    /\ forallb is_audit_event pre = true
    /\ change_inserts pre = audit_rows u p data.
Proof.
  intros Hu Ha.
  destruct (audit_phase_run env u p data w Hu)
    as (c & pre & more & E & A & R & [[-> ->] | [_ Hn]]).
  - exists pre. rewrite app_nil_r in R. auto.
  - contradiction.
Qed.

(** A submission equal to the snapshot issues the update and no insert. *)
Lemma onSubmit_equal_values (w : World State) (u : User.t) (p : Profile.t)
      (data : ProfileForm) :
  user (state w) = Some u -> profile (state w) = Some p ->
  firstName data = Profile.first_name p ->
  lastName data = Profile.last_name p ->
  Js.of_optional (phoneNumber data) = Profile.phone_number p ->
  change_inserts (emitted w (snd (onSubmit env data w))) = []
  /\ profile_updates (emitted w (snd (onSubmit env data w))) =
     [(update_payload data (Date_toISOString env (trace w)), User.id u)].
Proof.
  intros Hu Hp H1 H2 H3.
  rewrite (onSubmit_phases w u p data Hu Hp).
  unfold try_catch, bind, audit_phase.
  unfold firstName_differs, lastName_differs, phoneNumber_differs, Js.strict_neq.
  rewrite H1, H2, H3, !String.eqb_refl.
  assert (E : Js.strict_eq (Profile.phone_number p) (Profile.phone_number p) = true).
  { destruct (Profile.phone_number p); simpl; auto using String.eqb_refl. }
  rewrite E. simpl. unfold bind, ret.
  destruct (commit_phase_run env u data w)
    as [[F [e Ec]] | [F (c & st & post & Ec & Rl)]]; rewrite Ec.
  - unfold emit, update_call, failure_toast. simpl.
    erewrite emitted_app by (simpl; rewrite <- app_assoc; reflexivity).
    simpl. auto.
  - destruct (reload_events_no_write post Rl) as [R1 R2].
    unfold update_call, success_toast, failure_toast in *.
    destruct c as [[]|e]; unfold emit; simpl.
    + erewrite emitted_app by reflexivity. simpl. rewrite R1, R2. auto.
    + erewrite emitted_app by (simpl; rewrite <- app_assoc; reflexivity).
      simpl. rewrite change_inserts_app, profile_updates_app, R1, R2. auto.
Qed.

End Reload.

(** X4.  When the store answers every call of a submission with data, the
    run ends with the update, the success toast, the select of the profile
    and the select of the change history, in this order; the snapshot becomes
    the row the store returned, the change list the list it returned, and the
    form is reset to that row's names and phone number (the empty string for
    an absent one). *)
Theorem onSubmit_commit_reloads
        (env : Env) (w : World State) (u : User.t) (p : Profile.t) (data : ProfileForm)
        (row : Profile.t) (cs : list ProfileChange.t) :
  user (state w) = Some u -> profile (state w) = Some p ->
  inserts_answered env ->
  (forall h pl i, update_profiles env h pl i = Js.Resolved (PgData tt)) ->
  (forall h i, select_profiles_single env h i = Js.Resolved (PgData row)) ->
  (forall h i, select_profile_changes env h i = Js.Resolved (PgData cs)) ->
  let w' := snd (onSubmit env data w) in
  profile (state w') = Some row
  /\ changes (state w') = cs
  /\ form (state w') = Some (form_of row)
  /\ exists pre,
       forallb is_audit_event pre = true
       /\ emitted w w' =
          pre ++ [update_call env u data (trace w ++ pre); success_toast;
                  SelectProfile (User.id u); SelectProfileChanges (User.id u)].
Proof.
  intros Hu Hp Ha Hup Hsel Hcs w'. subst w'.
  rewrite (onSubmit_phases env w u p data Hu Hp). unfold try_catch, bind.
  destruct (audit_phase_answered env u p data w Hu Ha) as (pre & E & A & R). rewrite E.
  rewrite (commit_phase_accepted env u data _ tt (Hup _ _ _)). unfold bind.
  rewrite (loadProfile_cases env _ u) by exact Hu. rewrite Hsel.
  rewrite (loadProfileChanges_cases env _ u) by exact Hu. rewrite Hcs.
  simpl. split_ands; auto.
  exists pre. split; auto.
  apply emitted_eq. rewrite <- !app_assoc. reflexivity.
Qed.

Lemma onSubmit_commit_reloads_witness :
  let env := store_ok (Js.Str "555") in
  let w := loaded (ann Js.Null) in
  let w' := snd (onSubmit env (submit "Anna" "Lee" (Some "555")) w) in
  profile (state w') = Some (ann (Js.Str "555"))
  /\ changes (state w') = []
  /\ form (state w') = Some (form_of (ann (Js.Str "555")))
  /\ exists pre,
       forallb is_audit_event pre = true
       /\ emitted w w' =
          pre ++ [update_call env U1 (submit "Anna" "Lee" (Some "555")) (trace w ++ pre);
                  success_toast; SelectProfile "U1"; SelectProfileChanges "U1"].
Proof.
  intros env w.
  apply (onSubmit_commit_reloads env w U1 (ann Js.Null) (submit "Anna" "Lee" (Some "555"))
           (ann (Js.Str "555")) []).
  - reflexivity.
  - reflexivity.
  - intros h r. exists (PgData tt). reflexivity.
  - reflexivity.
  - reflexivity.
  - reflexivity.
Defined.

(** X5.  When the update is accepted but the profile select that follows
    is rejected, the user is shown the success toast and then the failure
    toast, the change history is not reloaded, and the component state stays
    as it was before the submission. *)
Theorem onSubmit_rejected_reload_after_commit
        (env : Env) (w : World State) (u : User.t) (p : Profile.t) (data : ProfileForm)
        (err : Js.Error) :
  user (state w) = Some u -> profile (state w) = Some p ->
  inserts_answered env ->
  (forall h pl i, update_profiles env h pl i = Js.Resolved (PgData tt)) ->
  (forall h i, select_profiles_single env h i = Js.Rejected err) ->
  let w' := snd (onSubmit env data w) in
  state w' = state w
  /\ exists pre,
       forallb is_audit_event pre = true
       /\ emitted w w' =
          pre ++ [update_call env u data (trace w ++ pre); success_toast;
                  SelectProfile (User.id u); failure_toast].
Proof.
  intros Hu Hp Ha Hup Hsel w'. subst w'.
  rewrite (onSubmit_phases env w u p data Hu Hp). unfold try_catch, bind.
  destruct (audit_phase_answered env u p data w Hu Ha) as (pre & E & A & R). rewrite E.
  rewrite (commit_phase_accepted env u data _ tt (Hup _ _ _)). unfold bind.
  rewrite (loadProfile_cases env _ u) by exact Hu. rewrite Hsel.
  unfold emit. simpl. split; auto.
  exists pre. split; auto.
  apply emitted_eq. rewrite <- !app_assoc. reflexivity.
Qed.

Lemma onSubmit_rejected_reload_after_commit_witness :
  let env := {| Date_toISOString := fun _ => "2025-02-01T09:00:00.000Z";
                navigator_platform := "Linux x86_64";
                navigator_userAgent := "Mozilla/5.0";
                insert_profile_changes := fun _ _ => ok;
                insert_login_history := fun _ _ => ok;
                update_profiles := fun _ _ _ => ok;
                select_profiles_single :=
                  fun _ _ => Js.Rejected {| Js.message := "Failed to fetch" |};
                select_profile_changes := fun _ _ => Js.Resolved (PgData []);
                select_login_history := fun _ _ => Js.Resolved (PgData []);
                signInWithPassword := fun _ _ _ => sign_in_ok |} in
  let w := loaded (ann Js.Null) in
  let data := submit "Anna" "Lee" (Some "") in
  let w' := snd (onSubmit env data w) in
  state w' = state w
  /\ exists pre,
       forallb is_audit_event pre = true
       /\ emitted w w' =
          pre ++ [update_call env U1 data (trace w ++ pre); success_toast;
                  SelectProfile "U1"; failure_toast].
Proof.
  intros env w data.
  apply (onSubmit_rejected_reload_after_commit env w U1 (ann Js.Null) data
           {| Js.message := "Failed to fetch" |}).
  - reflexivity.
  - reflexivity.
  - intros h r. exists (PgData tt). reflexivity.
  - reflexivity.
  - reflexivity.
Defined.

(** While the profile select is answered with an error, a submission leaves
    the user and the snapshot as they were. *)
Lemma onSubmit_keeps_snapshot_on_load_error
      (env : Env) (w : World State) (u : User.t) (p : Profile.t) (data : ProfileForm) :
  user (state w) = Some u -> profile (state w) = Some p ->
  inserts_answered env ->
  (forall h i, exists e, select_profiles_single env h i = Js.Resolved (PgError e)) ->
  user (state (snd (onSubmit env data w))) = Some u
  /\ profile (state (snd (onSubmit env data w))) = Some p.
Proof.
  intros Hu Hp Ha Hsel.
  rewrite (onSubmit_phases env w u p data Hu Hp). unfold try_catch, bind.
  destruct (audit_phase_answered env u p data w Hu Ha) as (pre & E & A & R). rewrite E.
  destruct (update_profiles env (trace w ++ pre)
              (update_payload data (Date_toISOString env (trace w ++ pre))) (User.id u))
    as [[d|e]|e] eqn:Hup.
  - rewrite (commit_phase_accepted env u data
               {| state := state w; trace := trace w ++ pre |} d Hup).
    unfold bind.
    rewrite (loadProfile_cases env _ u) by exact Hu.
    match goal with
    | |- context [select_profiles_single env ?h ?i] => destruct (Hsel h i) as [e0 He0]
    end.
    rewrite He0.
    rewrite (loadProfileChanges_cases env _ u) by exact Hu.
    match goal with
    | |- context [select_profile_changes env ?h ?i] =>
        destruct (select_profile_changes env h i) as [[cs|e1]|e1]
    end; simpl; auto.
  - unfold commit_phase, bind, ask, await, throw. simpl. rewrite Hup. simpl. auto.
  - unfold commit_phase, bind, ask, await, throw. simpl. rewrite Hup. simpl. auto.
Qed.

(** X6.  When the reload of the profile fails with an error answer, the
    snapshot stays the one from before the submission although the store may
    have been updated; submitting the same values again then inserts the same
    audit rows a second time. *)
Theorem onSubmit_stale_snapshot_repeats_audit
        (env : Env) (w : World State) (u : User.t) (p : Profile.t) (data : ProfileForm) :
  user (state w) = Some u -> profile (state w) = Some p ->
  inserts_answered env ->
  (forall h i, exists e, select_profiles_single env h i = Js.Resolved (PgError e)) ->
  let w1 := snd (onSubmit env data w) in
  let w2 := snd (onSubmit env data w1) in
  profile (state w1) = Some p
  /\ change_inserts (emitted w w1) = audit_rows u p data
  /\ change_inserts (emitted w1 w2) = audit_rows u p data.
Proof.
  intros Hu Hp Ha Hsel w1 w2.
  destruct (onSubmit_keeps_snapshot_on_load_error env w u p data Hu Hp Ha Hsel)
    as [Hu1 Hp1].
  fold w1 in Hu1, Hp1.
  split; [exact Hp1|]. split.
  - apply (onSubmit_answered_inserts env w u p data Hu Hp Ha).
  - apply (onSubmit_answered_inserts env w1 u p data Hu1 Hp1 Ha).
Qed.

Lemma onSubmit_stale_snapshot_repeats_audit_witness :
  let env := {| Date_toISOString := fun _ => "2025-02-01T09:00:00.000Z";
                navigator_platform := "Linux x86_64";
                navigator_userAgent := "Mozilla/5.0";
                insert_profile_changes := fun _ _ => ok;
                insert_login_history := fun _ _ => ok;
                update_profiles := fun _ _ _ => ok;
                select_profiles_single := fun _ _ => Js.Resolved (PgError invalid_credentials);
                select_profile_changes := fun _ _ => Js.Resolved (PgData []);
                select_login_history := fun _ _ => Js.Resolved (PgData []);
                signInWithPassword := fun _ _ _ => sign_in_ok |} in
  let w := loaded (ann (Js.Str "555")) in
  let data := submit "Anna" "Lee" (Some "555") in
  let w1 := snd (onSubmit env data w) in
  let w2 := snd (onSubmit env data w1) in
  profile (state w1) = Some (ann (Js.Str "555"))
  /\ change_inserts (emitted w w1) = [change_row U1 "first_name" (Some "Ann") (Some "Anna")]
  /\ change_inserts (emitted w1 w2) = [change_row U1 "first_name" (Some "Ann") (Some "Anna")].
Proof.
  intros env w data.
  apply (onSubmit_stale_snapshot_repeats_audit env w U1 (ann (Js.Str "555")) data).
  - reflexivity.
  - reflexivity.
  - intros h r. exists (PgData tt). reflexivity.
  - intros h i. exists invalid_credentials. reflexivity.
Defined.

(** X7.  Load and save round trip: after [loadProfile] has loaded a row
    whose phone number is a string, submitting the form exactly as it was
    reset inserts no audit row and issues one update that carries the loaded
    names and phone number. *)
Theorem load_then_submit_untouched
        (env : Env) (w : World State) (u : User.t) (row : Profile.t) (s : string) :
  user (state w) = Some u ->
  select_profiles_single env (trace w) (User.id u) = Js.Resolved (PgData row) ->
  Profile.phone_number row = Js.Str s ->
  let w1 := snd (loadProfile env w) in
  let evs := emitted w1 (snd (onSubmit env (form_of row) w1)) in
  form (state w1) = Some (form_of row)
  /\ change_inserts evs = []
  /\ profile_updates evs =
     [({| ProfileUpdate.first_name := Profile.first_name row;
          ProfileUpdate.last_name := Profile.last_name row;
          ProfileUpdate.phone_number := Some s;
          ProfileUpdate.updated_at := Date_toISOString env (trace w1) |}, User.id u)].
Proof.
  intros Hu Hsel Hph w1 evs. subst evs w1.
  rewrite (loadProfile_cases env w u Hu), Hsel. simpl snd.
  set (w1 := {| state := _; trace := _ |}).
  split; [reflexivity|].
  assert (Hp : Js.or_empty (Profile.phone_number row) = s) by now rewrite Hph.
  destruct (onSubmit_equal_values env w1 u row (form_of row)) as [E1 E2]; auto.
  - simpl. now rewrite Hph.
  - split; [exact E1|]. rewrite E2. unfold update_payload, form_of. simpl.
    rewrite Hph. reflexivity.
Qed.

Lemma load_then_submit_untouched_witness :
  let env := store_ok (Js.Str "555") in
  let w1 := snd (loadProfile env fresh) in
  let evs := emitted w1 (snd (onSubmit env (form_of (ann (Js.Str "555"))) w1)) in
  form (state w1) = Some (form_of (ann (Js.Str "555")))
  /\ change_inserts evs = []
  /\ profile_updates evs =
     [({| ProfileUpdate.first_name := "Ann";
          ProfileUpdate.last_name := "Lee";
          ProfileUpdate.phone_number := Some "555";
          ProfileUpdate.updated_at := "2025-02-01T09:00:00.000Z" |}, "U1")].
Proof.
  intros env.
  apply (load_then_submit_untouched env fresh U1 (ann (Js.Str "555")) "555");
    reflexivity.
Defined.

(** X8.  Whatever the store does, the rows a submission inserts are an
    initial part of the rows of the differing fields (first name, last name,
    phone number), at most one update is issued, no insert follows it, and an
    update is issued only when the insert of every differing field has been
    issued before. *)
Theorem onSubmit_update_needs_all_rows
        (env : Env) (w : World State) (u : User.t) (p : Profile.t) (data : ProfileForm) :
  user (state w) = Some u -> profile (state w) = Some p ->
  let evs := emitted w (snd (onSubmit env data w)) in
  (exists more, audit_rows u p data = change_inserts evs ++ more)
  /\ length (profile_updates evs) <= 1
  /\ change_inserts (before_update evs) = change_inserts evs
  /\ (profile_updates evs = [] \/ change_inserts evs = audit_rows u p data).
Proof.
  intros Hu Hp evs.
  destruct (onSubmit_outcome env w u p data Hu Hp) as (_ & _ & O).
  fold evs in O. clearbody evs.
  set (st := state (snd (onSubmit env data w))) in O. clearbody st.
  destruct O as [pre more A R N | pre A R F | pre post st A R F L].
  - assert (U : profile_updates (pre ++ [failure_toast]) = []).
    { rewrite profile_updates_app, (audit_events_no_update pre A). reflexivity. }
    rewrite (before_update_no_update _ U), U, change_inserts_app. simpl.
    rewrite app_nil_r. split_ands; eauto.
  - unfold update_call.
    rewrite before_update_audit, change_inserts_app, profile_updates_app by assumption.
    rewrite (audit_events_no_update pre A). simpl. rewrite app_nil_r.
    split_ands; auto. exists []. now rewrite app_nil_r.
  - unfold update_call, success_toast.
    rewrite before_update_audit, change_inserts_app, profile_updates_app by assumption.
    rewrite (audit_events_no_update pre A). simpl.
    destruct (reload_events_no_write post L) as [-> ->].
    rewrite app_nil_r. split_ands; auto. exists []. now rewrite app_nil_r.
Qed.

Lemma onSubmit_update_needs_all_rows_witness :
  let env := constant_env unreachable ok ok (ann (Js.Str "555")) sign_in_ok in
  let w := loaded (ann (Js.Str "555")) in
  let data := submit "Anna" "Leigh" (Some "555") in
  let evs := emitted w (snd (onSubmit env data w)) in
  (exists more, audit_rows U1 (ann (Js.Str "555")) data = change_inserts evs ++ more)
  /\ length (profile_updates evs) <= 1
  /\ change_inserts (before_update evs) = change_inserts evs
  /\ (profile_updates evs = [] \/ change_inserts evs = audit_rows U1 (ann (Js.Str "555")) data).
Proof.
  intros env w data.
  apply (onSubmit_update_needs_all_rows env w U1 (ann (Js.Str "555")) data); reflexivity.
Defined.

(** X9.  The success toast is truthful: a submission shows it exactly when
    it issued the update and the store did not fail that update. *)
Theorem onSubmit_success_toast_iff_update_accepted
        (env : Env) (w : World State) (data : ProfileForm) :
  let evs := emitted w (snd (onSubmit env data w)) in
  existsb is_toast_success evs = true <->
  exists payload i,
    profile_updates evs = [(payload, i)]
    /\ ~ update_failed (update_profiles env (trace w ++ before_update evs) payload i).
Proof.
  intros evs.
  assert (G : forall (P : ProfileUpdate.t -> string -> Prop), user (state w) = None \/ profile (state w) = None ->
                                 (existsb is_toast_success evs = true <->
                                  exists payload i, profile_updates evs = [(payload, i)] /\ P payload i)).
  { intros P H. subst evs. rewrite (onSubmit_guard env w data H). simpl.
    rewrite emitted_refl. simpl. split; [discriminate|].
    intros (pl & i & E & _). discriminate. }
  destruct (user (state w)) as [u|] eqn:Hu; [|apply G; auto].
  destruct (profile (state w)) as [p|] eqn:Hp; [|apply G; auto].
  clear G.
  destruct (onSubmit_outcome env w u p data Hu Hp) as (_ & _ & O).
  fold evs in O. clearbody evs.
  set (st := state (snd (onSubmit env data w))) in O. clearbody st.
  destruct O as [pre more A R N | pre A R F | pre post st A R F L];
    destruct (audit_events_quiet pre A) as [Q1 _].
  - rewrite existsb_app, Q1, profile_updates_app, (audit_events_no_update pre A). simpl.
    split; [discriminate|]. intros (pl & i & E & _). discriminate.
  - unfold update_call.
    rewrite existsb_app, Q1, profile_updates_app, (audit_events_no_update pre A),
      before_update_audit by assumption.
    simpl. split; [discriminate|].
    intros (pl & i & E & NF). inversion E; subst. contradiction.
  - unfold update_call, success_toast.
    rewrite existsb_app, Q1, profile_updates_app, (audit_events_no_update pre A),
      before_update_audit by assumption.
    destruct (reload_events_no_write post L) as [_ E]. simpl. rewrite E.
    split; [|reflexivity]. intros _. eauto.
Qed.

(** X10.  A loader whose select is answered with an error shows its failure
    toast, ends normally and leaves the component state exactly as it was:
    the stale snapshot, form and lists are kept. *)
Theorem loaders_keep_state_on_error
        (env : Env) (w : World State) (u : User.t) (e1 e2 e3 : Js.Error) :
  user (state w) = Some u ->
  select_profiles_single env (trace w) (User.id u) = Js.Resolved (PgError e1) ->
  select_profile_changes env (trace w) (User.id u) = Js.Resolved (PgError e2) ->
  select_login_history env (trace w) (User.id u) = Js.Resolved (PgError e3) ->
  loadProfile env w =
    (Normal tt, {| state := state w;
                   trace := trace w ++ [SelectProfile (User.id u);
                                        ToastError "Failed to load profile"] |})
  /\ loadProfileChanges env w =
    (Normal tt, {| state := state w;
                   trace := trace w ++ [SelectProfileChanges (User.id u);
                                        ToastError "Failed to load profile changes"] |})
  /\ loadLoginHistory env w =
    (Normal tt, {| state := state w;
                   trace := trace w ++ [SelectLoginHistory (User.id u);
                                        ToastError "Failed to load login history"] |}).
Proof.
  intros Hu H1 H2 H3.
  rewrite (loadProfile_cases env w u Hu), (loadProfileChanges_cases env w u Hu),
    (loadLoginHistory_cases env w u Hu), H1, H2, H3.
  auto.
Qed.

Lemma loaders_keep_state_on_error_witness :
  let failing := {| Js.message := "permission denied" |} in
  let env := {| Date_toISOString := fun _ => "2025-02-01T09:00:00.000Z";
                navigator_platform := "Linux x86_64";
                navigator_userAgent := "Mozilla/5.0";
                insert_profile_changes := fun _ _ => ok;
                insert_login_history := fun _ _ => ok;
                update_profiles := fun _ _ _ => ok;
                select_profiles_single := fun _ _ => Js.Resolved (PgError failing);
                select_profile_changes := fun _ _ => Js.Resolved (PgError failing);
                select_login_history := fun _ _ => Js.Resolved (PgError failing);
                signInWithPassword := fun _ _ _ => sign_in_ok |} in
  let w := loaded (ann (Js.Str "555")) in
  loadProfile env w =
    (Normal tt, {| state := state w;
                   trace := trace w ++ [SelectProfile "U1";
                                        ToastError "Failed to load profile"] |})
  /\ loadProfileChanges env w =
    (Normal tt, {| state := state w;
                   trace := trace w ++ [SelectProfileChanges "U1";
                                        ToastError "Failed to load profile changes"] |})
  /\ loadLoginHistory env w =
    (Normal tt, {| state := state w;
                   trace := trace w ++ [SelectLoginHistory "U1";
                                        ToastError "Failed to load login history"] |}).
Proof.
  intros failing env w.
  apply (loaders_keep_state_on_error env w U1 failing failing failing); reflexivity.
Defined.

End ProfileReload.

(* ------------------------------------------------------------------ *)
(** ** More on the sign-in handler *)

Module SignIn.
Import LoginPage LoginSpec Scenario Frame LoginAudit.

(** Every run of the sign-in handler, by the provider's answer. *)
Lemma sign_in_cases (env : Env) (w : World State) (data : LoginForm) :
  exists tail,
    onSubmit env data w =
    (Normal tt,
     {| state := state w;
        trace := trace w ++ SignInWithPassword (email data) (password data) :: tail |})
    /\ match signInWithPassword env (trace w) (email data) (password data) with
       | Js.Rejected _ => tail = [sign_in_toast]
       | Js.Resolved r =>
           match auth_error r with
           | Some error =>
               exists logs,
                 insert_logs logs /\
                 tail = InsertLoginHistory
                          (login_row env (email data) false (Some (Js.message error)))
                        :: logs ++ [sign_in_toast]
           | None =>
               match auth_user r with
               | Some authUser =>
                   exists logs,
                     insert_logs logs /\
                     tail = InsertLoginHistory (login_row env (User.id authUser) true None)
                            :: logs ++ [Navigate "/"]
               | None => tail = [Navigate "/"]
               end
           end
       end.
Proof.
  unfold onSubmit, try_catch, onSubmit_try, bind, await.
  destruct (signInWithPassword env (trace w) (email data) (password data)) as [r|e].
  - destruct (auth_error r) as [error|].
    + set (w1 := {| state := state w; trace := _ |}).
      destruct (recordLoginAttempt_run env (email data) false
                  (Some (Js.message error)) w1) as (logs & L & E).
      rewrite E. unfold throw, emit. simpl.
      eexists. split; [|exists logs; split; [exact L | reflexivity]].
      rewrite <- !app_assoc. reflexivity.
    + destruct (auth_user r) as [authUser|].
      * set (w1 := {| state := state w; trace := _ |}).
        destruct (recordLoginAttempt_run env (User.id authUser) true None w1)
          as (logs & L & E).
        rewrite E. unfold emit. simpl.
        eexists. split; [|exists logs; split; [exact L | reflexivity]].
        rewrite <- !app_assoc. reflexivity.
      * unfold ret, emit. simpl.
        eexists. split; [|reflexivity]. rewrite <- !app_assoc. reflexivity.
  - unfold emit. simpl.
    eexists. split; [|reflexivity]. rewrite <- !app_assoc. reflexivity.
Qed.

(** X11.  The sign-in handler never lets an exception escape, also when the
    provider's call or the audit insert is rejected, and it emits nothing but
    the sign-in call, a [login_history] insert, a console log, the failure
    toast and a navigation: it never reads or writes a profile. *)
Theorem sign_in_never_throws (env : Env) (w : World State) (data : LoginForm) :
  fst (onSubmit env data w) = Normal tt
  /\ forallb is_sign_in_event (emitted w (snd (onSubmit env data w))) = true.
Proof.
  destruct (sign_in_cases env w data) as (tail & E & C). rewrite E. simpl.
  split; [reflexivity|].
  rewrite (emitted_eq w _ _ _ eq_refl). simpl.
  assert (L : forall logs, insert_logs logs -> forallb is_sign_in_event logs = true).
  { intros logs [-> | [e ->]]; reflexivity. }
  destruct (signInWithPassword env (trace w) (email data) (password data)) as [r|e].
  - destruct (auth_error r) as [error|].
    + destruct C as (logs & Hl & ->). simpl. rewrite forallb_app, (L logs Hl). reflexivity.
    + destruct (auth_user r) as [authUser|].
      * destruct C as (logs & Hl & ->). simpl. rewrite forallb_app, (L logs Hl). reflexivity.
      * subst tail. reflexivity.
  - subst tail. reflexivity.
Qed.

(** X12.  The rows a sign-in submission inserts into [login_history] are
    determined by the provider's answer: one failure row for an error answer,
    one success row for an answer with a user, and none at all when the
    sign-in call itself is rejected or answers with neither error nor user. *)
Theorem sign_in_audit_rows (env : Env) (w : World State) (data : LoginForm) :
  login_inserts (emitted w (snd (onSubmit env data w))) = sign_in_rows env (trace w) data.
Proof.
  destruct (sign_in_cases env w data) as (tail & E & C). rewrite E. simpl snd.
  rewrite (emitted_eq w _ _ _ eq_refl). unfold sign_in_rows. simpl.
  destruct (signInWithPassword env (trace w) (email data) (password data)) as [r|e].
  - destruct (auth_error r) as [error|].
    + destruct C as (logs & Hl & ->). simpl.
      destruct (insert_logs_no_insert logs Hl) as [L1 _].
      rewrite login_inserts_app, L1. reflexivity.
    + destruct (auth_user r) as [authUser|].
      * destruct C as (logs & Hl & ->). simpl.
        destruct (insert_logs_no_insert logs Hl) as [L1 _].
        rewrite login_inserts_app, L1. reflexivity.
      * subst tail. reflexivity.
  - subst tail. reflexivity.
Qed.

(** X13.  The sign-in handler ends either with the navigation to "/" or with
    the failure toast, never with both: it navigates exactly when the
    provider answered without an error, and shows the toast otherwise. *)
Theorem sign_in_navigates_iff_accepted (env : Env) (w : World State) (data : LoginForm) :
  let evs := emitted w (snd (onSubmit env data w)) in
  exists pre,
    existsb is_navigate pre = false
    /\ existsb (fun e => match e with ToastError _ => true | _ => false end) pre = false
    /\ evs = pre ++ [if sign_in_accepted env (trace w) data
                     then Navigate "/" else sign_in_toast].
Proof.
  intros evs. subst evs.
  destruct (sign_in_cases env w data) as (tail & E & C). rewrite E. simpl snd.
  rewrite (emitted_eq w _ _ _ eq_refl). unfold sign_in_accepted.
  assert (L : forall logs, insert_logs logs ->
                           existsb is_navigate logs = false
                           /\ existsb (fun e => match e with ToastError _ => true
                                                        | _ => false end) logs = false).
  { intros logs [-> | [e ->]]; auto. }
  destruct (signInWithPassword env (trace w) (email data) (password data)) as [r|e].
  - destruct (auth_error r) as [error|].
    + destruct C as (logs & Hl & ->). destruct (L logs Hl) as [L1 L2].
      exists (SignInWithPassword (email data) (password data)
              :: InsertLoginHistory (login_row env (email data) false
                                       (Some (Js.message error))) :: logs).
      simpl. auto.
    + destruct (auth_user r) as [authUser|].
      * destruct C as (logs & Hl & ->). destruct (L logs Hl) as [L1 L2].
        exists (SignInWithPassword (email data) (password data)
                :: InsertLoginHistory (login_row env (User.id authUser) true None) :: logs).
        simpl. auto.
      * subst tail. exists [SignInWithPassword (email data) (password data)]. auto.
  - subst tail. exists [SignInWithPassword (email data) (password data)]. auto.
Qed.


End SignIn.

(* ------------------------------------------------------------------ *)
(** ** What the update carries *)

Module ProfileCommit.
Import ProfilePage AuditSpec Scenario ProfileRun.

(** X15.  Every update a submission issues is scoped to the user's id and
    carries the submitted first name, last name and phone number as they
    were submitted: the phone number is not normalised here, so an empty
    string is sent as the empty string although the audit row records null. *)
Theorem onSubmit_update_carries_submitted_values
        (env : Env) (w : World State) (u : User.t) (p : Profile.t) (data : ProfileForm)
        (payload : ProfileUpdate.t) (i : string) :
  user (state w) = Some u -> profile (state w) = Some p ->
  In (payload, i) (profile_updates (emitted w (snd (onSubmit env data w)))) ->
  i = User.id u
  /\ ProfileUpdate.first_name payload = firstName data
  /\ ProfileUpdate.last_name payload = lastName data
  /\ ProfileUpdate.phone_number payload = phoneNumber data.
Proof.
  intros Hu Hp Hin.
  destruct (onSubmit_outcome env w u p data Hu Hp) as (_ & _ & O).
  set (evs := emitted w (snd (onSubmit env data w))) in *. clearbody evs.
  set (st := state (snd (onSubmit env data w))) in O. clearbody st.
  destruct O as [pre more A R N | pre A R F | pre post st A R F L];
    rewrite profile_updates_app, (audit_events_no_update pre A) in Hin;
    unfold update_call in Hin; simpl in Hin.
  - contradiction.
  - destruct Hin as [Hin | []]. inversion Hin. auto.
  - destruct (reload_events_no_write post L) as [_ E]. rewrite E in Hin.
    destruct Hin as [Hin | []]. inversion Hin. auto.
Qed.

Lemma onSubmit_update_carries_submitted_values_witness :
  "U1" = "U1"
  /\ ProfileUpdate.first_name (update_payload (submit "Ann" "Lee" (Some "")) "2025-02-01T09:00:00.000Z") = "Ann"
  /\ ProfileUpdate.last_name (update_payload (submit "Ann" "Lee" (Some "")) "2025-02-01T09:00:00.000Z") = "Lee"
  /\ ProfileUpdate.phone_number (update_payload (submit "Ann" "Lee" (Some "")) "2025-02-01T09:00:00.000Z")
     = Some "".
Proof.
  apply (onSubmit_update_carries_submitted_values (store_ok Js.Null) (loaded (ann Js.Null))
           U1 (ann Js.Null) (submit "Ann" "Lee" (Some ""))).
  - reflexivity.
  - reflexivity.
  - left. reflexivity.
Defined.

End ProfileCommit.

(* ------------------------------------------------------------------ *)
(** ** Registration, sign-out and the sign-up trigger *)

Module Registration.
Import Schemas AuthPages Migration Scenario.

(** X16.  What the registration form accepts, the other two forms accept:
    the same email and password pass the sign-in schema, and the same names
    and phone number pass the profile schema. *)
Theorem registered_values_pass_the_other_forms
        (isEmail : string -> bool) (data : RegisterForm) :
  registerSchema isEmail data = true ->
  loginSchema isEmail {| LoginPage.email := email data;
                         LoginPage.password := password data |} = true
  /\ ProfilePage.profileSchema
       {| ProfilePage.firstName := firstName data;
          ProfilePage.lastName := lastName data;
          ProfilePage.phoneNumber := phoneNumber data |} = true.
Proof.
  unfold registerSchema, register_password, loginSchema, ProfilePage.profileSchema, min.
  intros H. simpl.
  repeat match goal with
         | H : (_ && _)%bool = true |- _ => apply andb_prop in H; destruct H
         end.
  split; apply andb_true_intro; split; assumption.
Qed.

Lemma registered_values_pass_the_other_forms_witness :
  let isEmail := matches (Ascii.eqb "@") in
  loginSchema isEmail {| LoginPage.email := "a@b.com";
                         LoginPage.password := "Passw0rd!" |} = true
  /\ ProfilePage.profileSchema (submit "Ann" "Lee" None) = true.
Proof.
  intros isEmail.
  apply (registered_values_pass_the_other_forms isEmail
           {| firstName := "Ann"; lastName := "Lee"; email := "a@b.com";
              password := "Passw0rd!"; phoneNumber := None |}).
  reflexivity.
Defined.

(** X17.  The registration handler issues exactly one sign-up call, with
    the form's email, password, names and phone number, and never lets an
    exception escape; when the provider answers without an error it shows the
    success toast and then navigates to "/login", and in every other case it
    only shows the failure toast. *)
Theorem Register_onSubmit_outcome
        (auth : AuthEnv) (w : World State) (data : RegisterForm) :
  let w' := snd (Register_onSubmit auth data w) in
  fst (Register_onSubmit auth data w) = Normal tt
  /\ state w' = state w ++ [SignUp (email data) (password data)
                              {| first_name := firstName data;
                                 last_name := lastName data;
                                 phone_number := phoneNumber data |}]
  /\ emitted w w' =
     match signUp auth (state w) (trace w) (email data) (password data)
             (signUp_data data) with
     | Js.Resolved None =>
         [ToastSuccess "Registration successful! Please sign in."; Navigate "/login"]
     | _ => [ToastError "Failed to register. Please try again."]
     end.
Proof.
  intros w'. subst w'.
  unfold Register_onSubmit, try_catch, bind, await_auth, throw, emit, signUp_data.
  destruct (signUp auth (state w) (trace w) (email data) (password data) _)
    as [[e|]|e]; simpl; split_ands; auto;
    apply emitted_eq; rewrite <- ?app_assoc; reflexivity.
Qed.

(** X18.  [handleLogout] issues one sign-out call and navigates to "/login"
    whenever that call is answered, also when the answer carries an error;
    when the call is rejected the exception leaves the handler and nothing is
    navigated. *)
Theorem handleLogout_outcome (auth : AuthEnv) (w : World State) :
  let w' := snd (handleLogout auth w) in
  state w' = state w ++ [SignOut]
  /\ match signOut auth (state w) (trace w) with
     | Js.Resolved _ =>
         fst (handleLogout auth w) = Normal tt /\ emitted w w' = [Navigate "/login"]
     | Js.Rejected e =>
         fst (handleLogout auth w) = Throw e /\ emitted w w' = []
     end.
Proof.
  intros w'. subst w'. unfold handleLogout, bind, await_auth, emit.
  destruct (signOut auth (state w) (trace w)) as [r|e]; simpl; split_ands; auto.
  - now apply emitted_eq.
  - apply emitted_eq. now rewrite app_nil_r.
Qed.

(** X19.  For every sign-up call the registration handler issues, the
    [profiles] row the trigger creates from the call's metadata carries the
    form's first and last name and no phone number, whatever phone number was
    entered. *)
Theorem registered_profile_has_no_phone
        (auth : AuthEnv) (w : World State) (data : RegisterForm)
        (e pw : string) (meta : SignUpData) (new_id now : string) :
  In (SignUp e pw meta) (skipn (length (state w))
                               (state (snd (Register_onSubmit auth data w)))) ->
  handle_new_user new_id (meta_of meta) now =
  {| Profile.id := new_id;
     Profile.first_name := firstName data;
     Profile.last_name := lastName data;
     Profile.phone_number := Js.Null;
     Profile.created_at := now;
     Profile.updated_at := now |}.
Proof.
  intros Hin.
  assert (S : forall (l : list AuthCall) x, skipn (length l) (l ++ x) = x).
  { induction l; simpl; auto. }
  unfold Register_onSubmit, try_catch, bind, await_auth, throw, emit, signUp_data in Hin.
  destruct (signUp auth (state w) (trace w) (email data) (password data) _)
    as [[err|]|err]; simpl in Hin; rewrite S in Hin;
    destruct Hin as [Hin | []]; inversion Hin; reflexivity.
Qed.

Lemma registered_profile_has_no_phone_witness :
  handle_new_user "U1"
    (meta_of {| first_name := "Ann"; last_name := "Lee"; phone_number := Some "555" |})
    "2025-01-31T20:52:21.000Z"
  = ann Js.Null.
Proof.
  apply (registered_profile_has_no_phone
           {| signUp := fun _ _ _ _ _ => Js.Resolved None;
              signOut := fun _ _ => Js.Resolved None |}
           {| state := []; trace := [] |}
           {| firstName := "Ann"; lastName := "Lee"; email := "a@b.com";
              password := "Passw0rd!"; phoneNumber := Some "555" |}
           "a@b.com" "Passw0rd!").
  left. reflexivity.
Defined.

End Registration.

(* ------------------------------------------------------------------ *)
(** ** From registration to the first save *)

Module FirstSave.
Import ProfilePage AuditSpec ProfileRun ProfileReload Frame Scenario.

(** X20.  For a user registered through the registration form, once
    [loadProfile] has loaded the row the sign-up trigger created, the form
    holds the registered names and the empty string as phone number, the
    profile schema accepts it, and saving it untouched inserts one
    [phone_number] row with old value null and new value null. *)
Theorem first_save_after_registration
        (env : Env) (isEmail : string -> bool) (reg : Schemas.RegisterForm)
        (new_id now : string) (w : World State) (u : User.t) :
  Schemas.registerSchema isEmail reg = true ->
  user (state w) = Some u ->
  select_profiles_single env (trace w) (User.id u) =
    Js.Resolved (PgData (Migration.handle_new_user new_id
                           (Migration.meta_of (AuthPages.signUp_data reg)) now)) ->
  inserts_answered env ->
  let w1 := snd (loadProfile env w) in
  let data := {| firstName := Schemas.firstName reg;
                 lastName := Schemas.lastName reg;
                 phoneNumber := Some "" |} in
  form (state w1) = Some data
  /\ profileSchema data = true
  /\ change_inserts (emitted w1 (snd (onSubmit env data w1)))
     = [change_row u "phone_number" None None].
Proof.
  intros Hreg Hu Hsel Ha w1 data. subst w1.
  rewrite (loadProfile_cases env w u Hu), Hsel. simpl snd.
  set (row := Migration.handle_new_user _ _ _).
  set (w1 := {| state := _; trace := _ |}).
  split; [reflexivity|]. split.
  - unfold Schemas.registerSchema, Schemas.min in Hreg. unfold profileSchema, data. simpl.
    repeat match goal with
           | H : (_ && _)%bool = true |- _ => apply andb_prop in H; destruct H
           end.
    apply andb_true_intro. split; assumption.
  - destruct (onSubmit_answered_inserts env w1 u row data) as (G & _ & _); auto.
    rewrite G. unfold audit_rows, firstName_differs, lastName_differs, phoneNumber_differs.
    simpl. rewrite !String.eqb_refl. reflexivity.
Qed.

Lemma first_save_after_registration_witness :
  let env := store_ok Js.Null in
  let w1 := snd (loadProfile env fresh) in
  let data := submit "Ann" "Lee" (Some "") in
  form (state w1) = Some data
  /\ profileSchema data = true
  /\ change_inserts (emitted w1 (snd (onSubmit env data w1)))
     = [change_row U1 "phone_number" None None].
Proof.
  intros env.
  apply (first_save_after_registration env (Schemas.matches (Ascii.eqb "@"))
           {| Schemas.firstName := "Ann"; Schemas.lastName := "Lee";
              Schemas.email := "a@b.com"; Schemas.password := "Passw0rd!";
              Schemas.phoneNumber := Some "555" |}
           "U1" "2025-01-31T20:52:21.000Z" fresh U1).
  - reflexivity.
  - reflexivity.
  - reflexivity.
  - intros h r. exists (PgData tt). reflexivity.
Defined.

End FirstSave.

(* ------------------------------------------------------------------ *)
(** ** The route guards *)

Module Guards.
Import Routing.

(** X21.  A page under [ProtectedRoute] is shown only to a user whose
    session has finished loading, and a page under [AuthLayout] only while
    there is no user; a layout never shows another page than its own
    outlet. *)
Theorem pages_shown_match_the_session (a : AuthState) (r : Route) :
  match App a r with
  | Shell o =>
      o = r /\ is_protected r = true /\ user a <> None /\ loading a = false
  | AuthCard _ o =>
      o = r /\ is_protected r = false /\ user a = None
  | NavigateTo to replace =>
      replace = true /\ to = (if is_protected r then "/login" else "/")
  | LoadingText => is_protected r = true /\ loading a = true
  end.
Proof.
  unfold App, ProtectedRoute, AuthLayout.
  destruct r, (loading a) eqn:L, (user a) as [u|] eqn:U; simpl; auto;
    repeat split; auto; discriminate.
Qed.



End Guards.

(* ------------------------------------------------------------------ *)
(** ** The history tables *)

Module HistoryTables.
Import ProfileView.

Lemma cell_not_empty (v : option string) : cell v <> "".
Proof.
  destruct v as [s|]; simpl; try discriminate.
  destruct (String.eqb s "") eqn:E; try discriminate.
  intros ->. discriminate.
Qed.

Lemma cell_shown (v : option string) : shown_as v (cell v).
Proof.
  unfold shown_as, cell. destruct v as [s|]; auto.
  destruct (String.eqb s "") eqn:E.
  - apply String.eqb_eq in E. subst. auto.
  - right. split; auto. intros ->. discriminate.
Qed.

(** X23.  The change-history card shows its placeholder text exactly when
    there is no change; otherwise it shows one line per change, in the order
    of the list, and the line of a change shows its field name, its old value,
    its new value and its timestamp, in this order, where an absent value and
    the empty string are both shown as "-" and any other value as itself. *)
Theorem changes_card_lines (changes : list ProfileChange.t) :
  match changes_card changes with
  | inr text => changes = [] /\ text = "No profile changes recorded yet."
  | inl lines =>
      changes <> []
      /\ length lines = length changes
      /\ forall i change,
           nth_error changes i = Some change ->
           exists old new,
             nth_error lines i =
               Some (ProfileChange.field_changed change, old, new,
                     ProfileChange.change_timestamp change)
             /\ shown_as (ProfileChange.old_value change) old
             /\ shown_as (ProfileChange.new_value change) new
  end.
Proof.
  unfold changes_card. destruct changes as [|c cs]; simpl; auto.
  split; [discriminate|]. split.
  - now rewrite length_map.
  - intros i change Hi.
    exists (cell (ProfileChange.old_value change)), (cell (ProfileChange.new_value change)).
    split; [|split; apply cell_shown].
    change (change_line c :: map change_line cs) with (map change_line (c :: cs)).
    rewrite nth_error_map, Hi. reflexivity.
Qed.

(** X24.  In the login table a reason is shown only on a failed line whose
    failure reason is a non-empty string, and then it is that reason in
    parentheses; a successful line shows "Success" and never a reason. *)
Theorem status_cell_reason (login : LoginHistory.t) (text : string) :
  snd (status_cell login) = Some text ->
  fst (status_cell login) = "Failed"
  /\ LoginHistory.success login = false
  /\ exists reason,
       LoginHistory.failure_reason login = Some reason
       /\ reason <> ""
       /\ text = ("(" ++ reason ++ ")")%string.
Proof.
  unfold status_cell. simpl.
  destruct (LoginHistory.success login); simpl; [discriminate|].
  destruct (LoginHistory.failure_reason login) as [reason|]; [|discriminate].
  destruct (String.eqb reason "") eqn:E; [discriminate|].
  intros H. inversion H. split_ands; auto.
  exists reason. split_ands; auto.
  intros ->. discriminate.
Qed.

Lemma status_cell_reason_witness :
  let login := {| LoginHistory.id := "L1";
                  LoginHistory.user_id := "U1";
                  LoginHistory.login_timestamp := "2025-02-01T09:00:00.000Z";
                  LoginHistory.ip_address := "203.0.113.7";
                  LoginHistory.device_info := "Linux x86_64 - Mozilla/5.0";
                  LoginHistory.success := false;
                  LoginHistory.failure_reason := Some "Invalid login credentials" |} in
  fst (status_cell login) = "Failed"
  /\ LoginHistory.success login = false
  /\ exists reason,
       LoginHistory.failure_reason login = Some reason
       /\ reason <> ""
       /\ "(Invalid login credentials)" = ("(" ++ reason ++ ")")%string.
Proof.
  intros login. apply (status_cell_reason login "(Invalid login credentials)").
  reflexivity.
Defined.

End HistoryTables.

(* ------------------------------------------------------------------ *)
(** ** Failed audit inserts *)

Module AuditFailures.
Import ProfilePage AuditSpec Scenario ProfileRun ProfileReload Frame.

Section Local.
Variable env : Env.

(** One guarded audit step: it goes on, or its insert was rejected. *)
Lemma audit_step_cases (b : bool) (f : string) (o n : option string)
      (w : World State) (u : User.t) :
  user (state w) = Some u ->
  (exists logs,
      when b (recordProfileChange env f o n) w =
      (Normal tt,
       {| state := state w;
          trace := trace w ++
                   (if b then [InsertProfileChange (change_row u f o n)] else []) ++ logs |})
      /\ forallb is_audit_event logs = true
      /\ change_inserts logs = [])
  \/ (exists e,
         insert_profile_changes env (trace w) (change_row u f o n) = Js.Rejected e
         /\ when b (recordProfileChange env f o n) w =
            (Throw e,
             {| state := state w;
                trace := trace w ++ [InsertProfileChange (change_row u f o n)] |})).
Proof.
  intros Hu. destruct b; simpl.
  - rewrite (recordProfileChange_run env f o n w u Hu). simpl.
    destruct (insert_profile_changes env (trace w) (change_row u f o n))
      as [[d|e]|e] eqn:E.
    + left. exists []. auto.
    + left. exists [ConsoleError "Failed to record profile change:" e]. auto.
    + right. exists e. auto.
  - left. exists []. unfold ret. destruct w as [st tr]. simpl.
    rewrite app_nil_r. auto.
Qed.

(** The audit steps end normally with the rows of all differing fields
    issued, or stop at the insert that was rejected. *)
Lemma audit_phase_cases (u : User.t) (p : Profile.t) (data : ProfileForm)
      (w : World State) :
  user (state w) = Some u ->
  (exists pre,
      audit_phase env p data w =
      (Normal tt, {| state := state w; trace := trace w ++ pre |})
      /\ forallb is_audit_event pre = true
      /\ change_inserts pre = audit_rows u p data)
  \/ (exists e pre0 row,
         insert_profile_changes env (trace w ++ pre0) row = Js.Rejected e
         /\ audit_phase env p data w =
            (Throw e,
             {| state := state w;
                trace := trace w ++ pre0 ++ [InsertProfileChange row] |})).
Proof.
  intros Hu. unfold audit_phase, audit_rows, bind.
  set (r1 := change_row u "first_name" _ _).
  set (r2 := change_row u "last_name" _ _).
  set (r3 := change_row u "phone_number" _ _).
  destruct (audit_step_cases (firstName_differs p data) "first_name"
              (Some (Profile.first_name p)) (Some (firstName data)) w u Hu)
    as [(l1 & E1 & A1 & I1) | (e & R1 & E1)]; fold r1 in E1; rewrite E1.
  2:{ right. exists e, [], r1. rewrite app_nil_r. auto. }
  set (s1 := if firstName_differs p data then [InsertProfileChange r1] else []) in *.
  assert (S1 : forallb is_audit_event s1 = true /\
               change_inserts s1 = if firstName_differs p data then [r1] else []).
  { subst s1. destruct (firstName_differs p data); auto. }
  destruct S1 as [S1a S1c].
  set (w1 := {| state := state w; trace := trace w ++ s1 ++ l1 |}).
  destruct (audit_step_cases (lastName_differs p data) "last_name"
              (Some (Profile.last_name p)) (Some (lastName data)) w1 u Hu)
    as [(l2 & E2 & A2 & I2) | (e & R2 & E2)]; fold r2 in E2; rewrite E2.
  2:{ right. exists e, (s1 ++ l1), r2. simpl. rewrite <- !app_assoc. auto. }
  set (s2 := if lastName_differs p data then [InsertProfileChange r2] else []) in *.
  assert (S2 : forallb is_audit_event s2 = true /\
               change_inserts s2 = if lastName_differs p data then [r2] else []).
  { subst s2. destruct (lastName_differs p data); auto. }
  destruct S2 as [S2a S2c].
  simpl state. simpl trace.
  set (w2 := {| state := state w; trace := (trace w ++ s1 ++ l1) ++ s2 ++ l2 |}).
  destruct (audit_step_cases (phoneNumber_differs p data) "phone_number"
              (Js.or_null (Profile.phone_number p))
              (Js.or_null (Js.of_optional (phoneNumber data))) w2 u Hu)
    as [(l3 & E3 & A3 & I3) | (e & R3 & E3)]; fold r3 in E3; rewrite E3.
  2:{ right. exists e, ((s1 ++ l1) ++ s2 ++ l2), r3. simpl.
      simpl in R3. rewrite <- !app_assoc in *. auto. }
  set (s3 := if phoneNumber_differs p data then [InsertProfileChange r3] else []) in *.
  assert (S3 : forallb is_audit_event s3 = true /\
               change_inserts s3 = if phoneNumber_differs p data then [r3] else []).
  { subst s3. destruct (phoneNumber_differs p data); auto. }
  destruct S3 as [S3a S3c].
  left. exists (((s1 ++ l1) ++ s2 ++ l2) ++ s3 ++ l3). simpl. split_ands.
  - now rewrite <- !app_assoc.
  - auto using forallb_app_true.
  - rewrite !change_inserts_app, I1, I2, I3, S1c, S2c, S3c, !app_nil_r, <- app_assoc.
    reflexivity.
Qed.

(** A submission with a user and a snapshot stops at a rejected insert, or
    issues the insert of every differing field and then the one update. *)
Lemma onSubmit_cases (w : World State) (u : User.t) (p : Profile.t) (data : ProfileForm) :
  user (state w) = Some u -> profile (state w) = Some p ->
  (exists e pre0 row,
      insert_profile_changes env (trace w ++ pre0) row = Js.Rejected e
      /\ emitted w (snd (onSubmit env data w))
         = pre0 ++ [InsertProfileChange row; failure_toast])
  \/ (change_inserts (emitted w (snd (onSubmit env data w))) = audit_rows u p data
      /\ change_inserts (before_update (emitted w (snd (onSubmit env data w))))
         = change_inserts (emitted w (snd (onSubmit env data w)))
      /\ length (profile_updates (emitted w (snd (onSubmit env data w)))) = 1).
Proof.
  intros Hu Hp.
  rewrite (onSubmit_phases env w u p data Hu Hp). unfold try_catch, bind.
  destruct (audit_phase_cases u p data w Hu)
    as [(pre & E & A & R) | (e & pre0 & row & Rj & E)]; rewrite E.
  - right.
    destruct (commit_phase_run env u data {| state := state w; trace := trace w ++ pre |})
      as [[F [e Ec]] | [F (c & st & post & Ec & Rl)]]; rewrite Ec.
    + unfold emit. simpl.
      rewrite (emitted_eq w _ _
                 (pre ++ [update_call env u data (trace w ++ pre); failure_toast]))
        by (rewrite <- !app_assoc; reflexivity).
      unfold update_call.
      rewrite before_update_audit, change_inserts_app, profile_updates_app by assumption.
      rewrite (audit_events_no_update pre A). simpl. rewrite app_nil_r. auto.
    + destruct (reload_events_no_write post Rl) as [R1 R2].
      assert (G : forall tail,
                 change_inserts tail = [] -> profile_updates tail = [] ->
                 let evs := pre ++ update_call env u data (trace w ++ pre)
                                :: success_toast :: tail in
                 change_inserts evs = audit_rows u p data
                 /\ change_inserts (before_update evs) = change_inserts evs
                 /\ length (profile_updates evs) = 1).
      { intros tail T1 T2. simpl. unfold update_call, success_toast.
        rewrite before_update_audit, change_inserts_app, profile_updates_app by assumption.
        rewrite (audit_events_no_update pre A). simpl. rewrite T1, T2, app_nil_r. auto. }
      destruct c as [[]|e]; simpl.
      * rewrite (emitted_eq w _ _
                   (pre ++ update_call env u data (trace w ++ pre) :: success_toast :: post))
          by (rewrite <- !app_assoc; reflexivity).
        apply G; auto.
      * unfold emit. simpl.
        rewrite (emitted_eq w _ _
                   (pre ++ update_call env u data (trace w ++ pre)
                        :: success_toast :: post ++ [failure_toast]))
          by (rewrite <- !app_assoc; reflexivity).
        apply G.
        -- rewrite change_inserts_app, R1. reflexivity.
        -- rewrite profile_updates_app, R2. reflexivity.
  - left. exists e, pre0, row. split; [exact Rj|].
    unfold emit. simpl. apply emitted_eq. rewrite <- !app_assoc. reflexivity.
Qed.

(** When every insert the run issued was answered, the run did not stop at
    an insert. *)
Lemma onSubmit_answered_run (w : World State) (u : User.t) (p : Profile.t)
      (data : ProfileForm) :
  user (state w) = Some u -> profile (state w) = Some p ->
  run_inserts_answered env (trace w) (emitted w (snd (onSubmit env data w))) ->
  change_inserts (emitted w (snd (onSubmit env data w))) = audit_rows u p data
  /\ change_inserts (before_update (emitted w (snd (onSubmit env data w))))
     = change_inserts (emitted w (snd (onSubmit env data w)))
  /\ length (profile_updates (emitted w (snd (onSubmit env data w)))) = 1.
Proof.
  intros Hu Hp Ha.
  destruct (onSubmit_cases w u p data Hu Hp) as [(e & pre0 & row & Rj & E) | G]; auto.
  exfalso. destruct (Ha pre0 row [failure_toast] E) as [r Hr]. congruence.
Qed.

End Local.

(** Away from the empty-versus-absent case of the phone number, the rows a
    submission inserts are counted by the specification's K: one row per
    differing field, all issued before the one update, when every insert the
    run issued was answered. *)
Lemma onSubmit_audits_normalised_changes
      (env : Env) (w : World State) (u : User.t) (p : Profile.t) (data : ProfileForm) :
  user (state w) = Some u -> profile (state w) = Some p ->
  run_inserts_answered env (trace w) (emitted w (snd (onSubmit env data w))) ->
  phoneNumber_differs p data = spec_phone_differs p data ->
  let evs := emitted w (snd (onSubmit env data w)) in
  change_inserts evs = audit_rows u p data
  /\ length (change_inserts evs) = spec_changed_count p data
  /\ change_inserts (before_update evs) = change_inserts evs
  /\ length (profile_updates evs) = 1.
Proof.
  intros Hu Hp Ha Hd evs.
  destruct (onSubmit_answered_run env w u p data Hu Hp Ha) as (G1 & G2 & G3).
  fold evs in G1, G2, G3. split_ands; auto.
  rewrite G1. unfold audit_rows, spec_changed_count. rewrite <- Hd.
  destruct (firstName_differs p data), (lastName_differs p data),
    (phoneNumber_differs p data); reflexivity.
Qed.



End AuditFailures.
